(** * fathom_play: the dual-path Fathom client, its debug transport and its
      filter builders

    A shallow embedding of [fathom_connection.py].  Python values are
    modelled as follows.

    - [str] is [string]; a character is one of the code points 0..255.
    - a [dict] with string keys is a [gmap string _].
    - the vendor SDK, [requests.get] and the wrapped [httpx] transport are
      external: their behaviour is given by oracles over an abstract
      world [W], and every call that reaches the SDK or [requests.get] is
      recorded in the state, in order.
    - the process environment ([os.environ]), the bindings of [~/.env]
      and the lines printed so far are part of the state.
    - the clock of the machine is external too: the current instant and
      the offset of the local time zone are read from the world.
    - a computation is a function from the state to an outcome and a new
      state; the outcome is either a raised exception or a value.
    - in [FathomConnection] whatever the SDK and [requests.get] raise is
      taken to be an instance of Python's [Exception], so that every
      [except Exception] handler applies; [Interruptible] has the same
      primitives without that assumption. *)

From Stdlib Require Import ZArith Ascii String.
From stdpp Require Import gmap strings list fin_maps pretty.

Local Open Scope string_scope.
Local Open Scope Z_scope.

(** ** Strings as Python uses them *)

Module PyStr.

(** [s[:n]] *)
Fixpoint slice_to (n : nat) (s : string) : string :=
  match n, s with
  | O, _ => EmptyString
  | S _, EmptyString => EmptyString
  | S n', String c s' => String c (slice_to n' s')
  end.

(** [len(s)] *)
Definition len (s : string) : Z := Z.of_nat (String.length s).

(** [c.lower()] on the code points 0..255: the ASCII capitals and the
    Latin-1 capitals U+00C0..U+00DE (U+00D7, the multiplication sign, is
    not a letter) move up by 32, every other code point is its own
    lower-case form. *)
Definition lower_char (c : ascii) : ascii :=
  let n := N_of_ascii c in
  if ((65 <=? n) && (n <=? 90))%N then ascii_of_N (n + 32)
  else if ((192 <=? n) && (n <=? 222) && negb (n =? 215))%N
       then ascii_of_N (n + 32)
  else c.

(** [s.lower()] *)
Fixpoint lower (s : string) : string :=
  match s with
  | EmptyString => EmptyString
  | String c s' => String (lower_char c) (lower s')
  end.

(** [hay.startswith(needle)] *)
Fixpoint startswith (needle hay : string) : bool :=
  match needle, hay with
  | EmptyString, _ => true
  | String _ _, EmptyString => false
  | String a n', String b h' =>
      if Ascii.eqb a b then startswith n' h' else false
  end.

(** [needle in hay]: [needle] occurs somewhere in [hay]. *)
Fixpoint contains (needle hay : string) : bool :=
  startswith needle hay ||
  match hay with
  | EmptyString => false
  | String _ h' => contains needle h'
  end.

(** [s * n]: [n] copies of [s], none when [n] is zero or negative. *)
Definition mul (s : string) (n : Z) : string :=
  Nat.iter (Z.to_nat n) (fun acc => s +:+ acc) EmptyString.

(** The line feed, written [\n] in the source. *)
Definition nl : string := String (ascii_of_nat 10) EmptyString.

End PyStr.

(** ** Values passed as filters and query parameters *)

(** The two members of the SDK's domain-type enumeration that the
    repository names. *)
Inductive ListMeetingsCalendarInviteesDomainsType :=
| ONE_OR_MORE_EXTERNAL
| ONLY_INTERNAL.

Inductive MeetingType := MT_ALL | MT_INTERNAL | MT_EXTERNAL.

Inductive PyVal :=
| VNone
| VBool (b : bool)
| VInt (z : Z)
| VStr (s : string)
| VDomainsType (d : ListMeetingsCalendarInviteesDomainsType)
| VMeetingType (m : MeetingType).

(** A keyword-argument dictionary ([**filters], [**params], [**kwargs]). *)
Abbreviation Kwargs := (gmap string PyVal).

(** [{**a, **b}]: the entries of [a], then those of [b] written over them.
    stdpp's union keeps the left operand's value on a shared key, so the
    later operand goes on the left. *)
Definition dict_merge {V} (a b : gmap string V) : gmap string V := b ∪ a.

(** ** Exceptions and the response envelope *)

(** An exception object: its class name and what [str(e)] gives. *)
Record Exn := mkExn { exn_class : string; exn_str : string }.

Definition ValueError (msg : string) : Exn := mkExn "ValueError" msg.

Section Envelope.
Context {Payload : Type}.

(** [@dataclass FathomResponse], with the defaults of its fields. *)
Record FathomResponse := mkFathomResponse {
  success : bool;
  data : option Payload;
  error : option string;
  method : string;
  status_code : option Z
}.

(** [FathomResponse(success=False, error=msg, method=tag)] *)
Definition failed (msg tag : string) : FathomResponse :=
  {| success := false; data := None; error := Some msg;
     method := tag; status_code := None |}.

(** [FathomResponse(success=True, data=d, method=tag)] *)
Definition succeeded (d : Payload) (tag : string) : FathomResponse :=
  {| success := true; data := Some d; error := None;
     method := tag; status_code := None |}.

(** The invariant of the envelope. *)
Definition envelope_ok (r : FathomResponse) : Prop :=
  (success r = true -> error r = None) /\
  (success r = false -> data r = None).

End Envelope.
Arguments FathomResponse : clear implicits.

(** ** The world outside the program *)

(** What [requests.get] hands back: the status code, the body text, and
    what [response.json()] does with that body, which is to return the
    decoded payload or to raise. *)
Record Response {Payload : Type} := mkResponse {
  resp_status_code : Z;
  resp_text : string;
  resp_json : Exn + Payload
}.
Arguments Response : clear implicits.

(** A call that leaves the process. *)
Inductive Call {Sdk : Type} :=
| SdkListTeams (client : Sdk)
| SdkListMeetings (client : Sdk) (filters : Kwargs)
| RequestsGet (url : string) (headers : gmap string string)
              (params : option Kwargs).
Arguments Call : clear implicits.

(** The state a computation runs in. [home_dotenv] is the content of
    [~/.env] as python-dotenv reads it, one pair per binding in file order
    ([None] for a name without a value); it is empty when there is no such
    file. *)
Record State {W Sdk : Type} := mkState {
  world : W;
  calls : list (Call Sdk);
  stdout : list string;
  environ : gmap string string;
  home_dotenv : list (string * option string)
}.
Arguments State : clear implicits.

Section Monad.
Context {W Sdk : Type}.
Local Abbreviation St := (State W Sdk).

(** A computation: it raises ([inl]) or returns ([inr]), and leaves a
    state. *)
Definition M (A : Type) : Type := St -> (Exn + A) * St.

Definition ret {A} (a : A) : M A := fun st => (inr a, st).

Definition raise {A} (e : Exn) : M A := fun st => (inl e, st).

Definition bind {A B} (m : M A) (k : A -> M B) : M B := fun st =>
  match m st with
  | (inl e, st') => (inl e, st')
  | (inr a, st') => k a st'
  end.

(** [try: body  except Exception as e: handler(e)], for a [body] that
    raises instances of [Exception] only. *)
Definition try_except {A} (body : M A) (handler : Exn -> M A) : M A :=
  fun st =>
    match body st with
    | (inl e, st') => handler e st'
    | (inr a, st') => (inr a, st')
    end.

(** An expression that may raise but touches no state. *)
Definition lift {A} (r : Exn + A) : M A := fun st => (r, st).

(** [print(line)] *)
Definition print (line : string) : M unit := fun st =>
  (inr tt, {| world := world st; calls := calls st;
              stdout := stdout st ++ [line];
              environ := environ st; home_dotenv := home_dotenv st |}).

(** [for x in xs: body(x)] *)
Fixpoint for_each {A} (xs : list A) (body : A -> M unit) : M unit :=
  match xs with
  | [] => ret tt
  | x :: xs' => bind (body x) (fun _ => for_each xs' body)
  end.

(** An external call: the oracle [f] answers from the world and moves
    it, and the call is appended to the record of calls. What the callee
    prints by itself while it runs, as the SDK's HTTP client does when it
    was built with the debug transport, is not recorded. *)
Definition external {A} (c : Call Sdk) (f : W -> (Exn + A) * W) : M A :=
  fun st =>
    let '(r, w') := f (world st) in
    (r, {| world := w'; calls := calls st ++ [c];
           stdout := stdout st; environ := environ st;
           home_dotenv := home_dotenv st |}).

(** [os.getenv(name)] *)
Definition getenv (name : string) : M (option string) := fun st =>
  (inr (environ st !! name), st).

(** The bindings of a dotenv file as a dictionary: a later line for a
    name replaces an earlier one. *)
Definition dotenv_dict (entries : list (string * option string))
  : gmap string (option string) :=
  list_to_map (reverse entries).

(** [load_dotenv(path)] for the home file, with python-dotenv's default
    of not overriding: every binding of the file that has a value and
    whose name the environment does not have yet is added to the
    environment. *)
Definition load_dotenv : M unit := fun st =>
  (inr tt, {| world := world st; calls := calls st; stdout := stdout st;
              environ := environ st ∪ omap id (dotenv_dict (home_dotenv st));
              home_dotenv := home_dotenv st |}).

End Monad.

Declare Scope py_scope.
Delimit Scope py_scope with py.
Notation "x <- m ;; k" := (bind m (fun x => k))
  (at level 20, m at level 99, k at level 200, only parsing) : py_scope.
Notation "m ;; k" := (bind m (fun _ => k))
  (at level 100, k at level 200, only parsing, right associativity) : py_scope.
Local Open Scope py_scope.

(** ** Dates and the clock ([datetime])

    The arithmetic is that of CPython's [datetime] module on the
    proleptic Gregorian calendar: a date is counted in days from
    0001-01-01, which is day 1. *)

Definition OverflowError (msg : string) : Exn := mkExn "OverflowError" msg.

Module Datetime.

(** A naive [datetime]: calendar and clock fields, no time zone. *)
Record datetime := mk {
  year : Z;
  month : Z;
  day : Z;
  hour : Z;
  minute : Z;
  second : Z;
  microsecond : Z
}.

Definition is_leap (year : Z) : bool :=
  (year mod 4 =? 0) && (negb (year mod 100 =? 0) || (year mod 400 =? 0)).

(** The number of days before January 1st of [year]. *)
Definition days_before_year (year : Z) : Z :=
  let y := year - 1 in
  y * 365 + y / 4 - y / 100 + y / 400.

(** The days of each month in a year that is not a leap year. *)
Definition DAYS_IN_MONTH (month : Z) : Z :=
  match month with
  | 1 => 31 | 2 => 28 | 3 => 31 | 4 => 30 | 5 => 31 | 6 => 30
  | 7 => 31 | 8 => 31 | 9 => 30 | 10 => 31 | 11 => 30 | 12 => 31
  | _ => -1
  end.

(** The days before the first of each month in such a year. *)
Definition DAYS_BEFORE_MONTH (month : Z) : Z :=
  match month with
  | 1 => 0 | 2 => 31 | 3 => 59 | 4 => 90 | 5 => 120 | 6 => 151
  | 7 => 181 | 8 => 212 | 9 => 243 | 10 => 273 | 11 => 304 | 12 => 334
  | _ => -1
  end.

Definition days_before_month (year month : Z) : Z :=
  DAYS_BEFORE_MONTH month + (if (2 <? month) && is_leap year then 1 else 0).

(** The ordinal of a date. *)
Definition ymd2ord (year month day : Z) : Z :=
  days_before_year year + days_before_month year month + day.

(** The date of an ordinal: 400-year cycles of 146097 days, centuries of
    36524, 4-year cycles of 1461, years of 365; the last day of a cycle
    or of a leap century is December 31st of the year before. *)
Definition ord2ymd (ordinal : Z) : Z * Z * Z :=
  let n := ordinal - 1 in
  let n400 := n / 146097 in
  let n := n mod 146097 in
  let year := n400 * 400 + 1 in
  let n100 := n / 36524 in
  let n := n mod 36524 in
  let n4 := n / 1461 in
  let n := n mod 1461 in
  let n1 := n / 365 in
  let n := n mod 365 in
  let year := year + n100 * 100 + n4 * 4 + n1 in
  if (n1 =? 4) || (n100 =? 4) then (year - 1, 12, 31)
  else
    let leapyear := (n1 =? 3) && (negb (n4 =? 24) || (n100 =? 3)) in
    let month := Z.shiftr (n + 50) 5 in
    let preceding :=
      DAYS_BEFORE_MONTH month + (if (2 <? month) && leapyear then 1 else 0) in
    if n <? preceding then
      let month := month - 1 in
      let preceding :=
        preceding
        - (DAYS_IN_MONTH month + (if (month =? 2) && leapyear then 1 else 0)) in
      (year, month, n - preceding + 1)
    else (year, month, n - preceding + 1).

(** [dt.toordinal()] *)
Definition toordinal (dt : datetime) : Z :=
  ymd2ord (year dt) (month dt) (day dt).

(** The ordinal of 1970-01-01, and the microseconds of a day. *)
Definition EPOCH_ORDINAL : Z := 719163.
Definition US_PER_DAY : Z := 86400 * 1000000.

(** The fields of the instant [us] microseconds after
    1970-01-01T00:00:00, on the clock that counts from there. *)
Definition of_microseconds (us : Z) : datetime :=
  let days := us / US_PER_DAY in
  let rest := us mod US_PER_DAY in
  let '(y, m, d) := ord2ymd (EPOCH_ORDINAL + days) in
  {| year := y; month := m; day := d;
     hour := rest / 3600000000;
     minute := rest / 60000000 mod 60;
     second := rest / 1000000 mod 60;
     microsecond := rest mod 1000000 |}.

(** The microseconds from 1970-01-01T00:00:00 to [dt] on one clock. *)
Definition to_microseconds (dt : datetime) : Z :=
  (toordinal dt - EPOCH_ORDINAL) * US_PER_DAY
  + ((hour dt * 60 + minute dt) * 60 + second dt) * 1000000
  + microsecond dt.

(** [timedelta(days=days)]: at most 999999999 days either way. *)
Definition timedelta_days (days : Z) : Exn + Z :=
  if 999999999 <? Z.abs days
  then inl (OverflowError
              ("days=" +:+ pretty days +:+ "; must have magnitude <= 999999999"))
  else inr days.

(** [dt - delta] for a [delta] of whole days: the date moves, the time of
    day stays; the result has to lie in the years 1 to 9999. *)
Definition sub_days (dt : datetime) (delta : Z) : Exn + datetime :=
  let ordinal := toordinal dt - delta in
  if (0 <? ordinal) && (ordinal <=? 3652059) then
    let '(y, m, d) := ord2ymd ordinal in
    inr {| year := y; month := m; day := d;
           hour := hour dt; minute := minute dt; second := second dt;
           microsecond := microsecond dt |}
  else inl (OverflowError "date value out of range").

(** [format(n, "0{width}d")] for [n] that is not negative. *)
Definition zero_padded (width : Z) (n : Z) : string :=
  PyStr.mul "0" (width - PyStr.len (pretty n)) +:+ pretty n.

(** [dt.isoformat()]: the microseconds are left out when they are zero. *)
Definition isoformat (dt : datetime) : string :=
  zero_padded 4 (year dt) +:+ "-" +:+ zero_padded 2 (month dt) +:+ "-" +:+
  zero_padded 2 (day dt) +:+ "T" +:+
  zero_padded 2 (hour dt) +:+ ":" +:+ zero_padded 2 (minute dt) +:+ ":" +:+
  zero_padded 2 (second dt) +:+
  (if microsecond dt =? 0 then "" else "." +:+ zero_padded 6 (microsecond dt)).

End Datetime.

(** The clock of the machine. [time_us w] is the current instant, in
    microseconds since 1970-01-01T00:00:00 UTC; [utcoffset w] is the
    number of seconds by which the local time zone is ahead of UTC at
    that instant. *)
Class Clock (W : Type) := {
  time_us : W -> Z;
  utcoffset : W -> Z
}.

Section Now.
Context {W Sdk : Type} `{!Clock W}.

(** [datetime.now()]: the local wall-clock reading of the current
    instant, without a time zone. *)
Definition datetime_now : M (W:=W) (Sdk:=Sdk) Datetime.datetime := fun st =>
  (inr (Datetime.of_microseconds
          (time_us (world st) + utcoffset (world st) * 1000000)), st).

End Now.

(** ** Filter builders *)

Module FathomFilters.

Section LastNDays.
Context {W Sdk : Type} `{!Clock W}.

Definition last_n_days (days : Z) : M (W:=W) (Sdk:=Sdk) (gmap string PyVal) :=
  now <- datetime_now ;;
  delta <- lift (Datetime.timedelta_days days) ;;
  earlier <- lift (Datetime.sub_days now delta) ;;
  let date := Datetime.isoformat earlier +:+ "Z" in
  ret {[ "created_after" := VStr date ]}.

End LastNDays.

Definition external_meetings : Kwargs :=
  {[ "calendar_invitees_domains_type" := VDomainsType ONE_OR_MORE_EXTERNAL ]}.

Definition internal_meetings : Kwargs :=
  {[ "calendar_invitees_domains_type" := VDomainsType ONLY_INTERNAL ]}.

Definition with_details : Kwargs :=
  <[ "include_action_items" := VBool true ]>
  (<[ "include_crm_matches" := VBool true ]>
  (<[ "include_summary" := VBool true ]>
  {[ "include_transcript" := VBool true ]})).

End FathomFilters.

(** ** The debug transport *)

Module Httpx.

(** The parts of an [httpx.Request] that the program reads;
    [headers] is what [request.headers.items()] yields. *)
Record Request := mkRequest {
  method : string;
  url : string;
  headers : list (string * string)
}.

(** [httpx.BaseTransport]: anything that can handle a request. *)
Class BaseTransport (W Sdk HttpxResponse T : Type) :=
  handle_request : T -> Request -> M (W:=W) (Sdk:=Sdk) HttpxResponse.

End Httpx.

Module DebugTransport.
Section DebugTransport.
Context {W Sdk HttpxResponse T : Type}.
Context `{!Httpx.BaseTransport W Sdk HttpxResponse T}.

Record t := mk { transport : T; debug : bool }.

Definition handle_request (self : t) (request : Httpx.Request)
  : M (W:=W) (Sdk:=Sdk) HttpxResponse :=
  (if debug self then
     print ("DEBUG: " +:+ Httpx.method request +:+ " " +:+ Httpx.url request) ;;
     for_each (Httpx.headers request) (fun '(key, value) =>
       if PyStr.contains "auth" (PyStr.lower key)
          || PyStr.contains "key" (PyStr.lower key)
       then print (if 20 <? PyStr.len value
                   then "  " +:+ key +:+ ": " +:+ PyStr.slice_to 20 value +:+ "..."
                   else "  " +:+ key +:+ ": " +:+ value)
       else print ("  " +:+ key +:+ ": " +:+ value))
   else ret tt) ;;
  Httpx.handle_request (transport self) request.

#[export] Instance base_transport : Httpx.BaseTransport W Sdk HttpxResponse t :=
  handle_request.

End DebugTransport.
Arguments t : clear implicits.
End DebugTransport.

(** ** The connection *)

(** The vendor SDK and the HTTP library, as the client sees them.
    [sdk_new key debug] is the construction of the SDK client (with the
    debug HTTP client when [debug] is set); the three others are the calls
    that reach the network. *)
Class Service (W Sdk Payload : Type) := {
  sdk_new : string -> bool -> Exn + Sdk;
  sdk_list_teams : Sdk -> W -> (Exn + Payload) * W;
  sdk_list_meetings : Sdk -> Kwargs -> W -> (Exn + Payload) * W;
  requests_get : string -> gmap string string -> option Kwargs ->
                 W -> (Exn + Response Payload) * W
}.

(** The truth value Python gives an [Optional[str]]: [None] and the empty
    string are false. *)
Definition nonempty (o : option string) : option string :=
  match o with
  | Some (String c s) => Some (String c s)
  | _ => None
  end.

Module FathomConnection.
Section FathomConnection.
Context {W Sdk Payload : Type} `{!Service W Sdk Payload}.
Local Abbreviation M := (M (W:=W) (Sdk:=Sdk)).

Record t := mk {
  debug : bool;
  api_key : string;
  base_url : string;
  sdk_client : option Sdk;
  rest_headers : gmap string string
}.

Definition _load_api_key (api_key : option string) : M string :=
  match nonempty api_key with
  | Some key => ret key
  | None =>
      load_dotenv ;;
      api_key <- getenv "FATHOM_API_KEY" ;;
      match nonempty api_key with
      | None => raise (ValueError
          "FATHOM_API_KEY not found in ~/.env or provided as parameter")
      | Some key => ret key
      end
  end.

Definition _init_sdk_client (debug : bool) (api_key : string)
  : M (option Sdk) :=
  try_except
    (client <- lift (sdk_new api_key debug) ;; ret (Some client))
    (fun e =>
       (if debug
        then print ("Failed to initialize SDK client: " +:+ exn_str e)
        else ret tt) ;;
       ret None).

Definition __init__ (api_key : option string) (debug : bool) : M t :=
  key <- _load_api_key api_key ;;
  client <- _init_sdk_client debug key ;;
  ret {| debug := debug;
         api_key := key;
         base_url := "https://api.fathom.ai/external/v1";
         sdk_client := client;
         rest_headers :=
           <[ "x-api-key" := key ]> {[ "Accept" := "application/json" ]} |}.

(** *** SDK methods *)

Definition list_teams_sdk (self : t) : M (FathomResponse Payload) :=
  match sdk_client self with
  | None => ret (failed "SDK client not initialized" "sdk")
  | Some client =>
      try_except
        (response <- external (SdkListTeams client) (sdk_list_teams client) ;;
         ret (succeeded response "sdk"))
        (fun e => ret (failed (exn_str e) "sdk"))
  end.

Definition list_meetings_sdk (self : t) (filters : Kwargs)
  : M (FathomResponse Payload) :=
  match sdk_client self with
  | None => ret (failed "SDK client not initialized" "sdk")
  | Some client =>
      try_except
        (response <- external (SdkListMeetings client filters)
                              (sdk_list_meetings client filters) ;;
         ret (succeeded response "sdk"))
        (fun e => ret (failed (exn_str e) "sdk"))
  end.

(** *** REST methods

    [response.json()] is evaluated, and may raise, only when the status
    code is 200; [lift (resp_json response)] is that call. *)

Definition list_teams_rest (self : t) : M (FathomResponse Payload) :=
  try_except
    (let url := base_url self +:+ "/teams" in
     response <- external (RequestsGet url (rest_headers self) None)
                          (requests_get url (rest_headers self) None) ;;
     d <- (if resp_status_code response =? 200
           then j <- lift (resp_json response) ;; ret (Some j)
           else ret None) ;;
     ret {| success := resp_status_code response =? 200;
            data := d;
            error := if negb (resp_status_code response =? 200)
                     then Some (resp_text response) else None;
            method := "rest";
            status_code := Some (resp_status_code response) |})
    (fun e => ret (failed (exn_str e) "rest")).

Definition list_meetings_rest (self : t) (params : Kwargs)
  : M (FathomResponse Payload) :=
  try_except
    (let url := base_url self +:+ "/meetings" in
     response <- external (RequestsGet url (rest_headers self) (Some params))
                          (requests_get url (rest_headers self) (Some params)) ;;
     d <- (if resp_status_code response =? 200
           then j <- lift (resp_json response) ;; ret (Some j)
           else ret None) ;;
     ret {| success := resp_status_code response =? 200;
            data := d;
            error := if negb (resp_status_code response =? 200)
                     then Some (resp_text response) else None;
            method := "rest";
            status_code := Some (resp_status_code response) |})
    (fun e => ret (failed (exn_str e) "rest")).

(** *** Combined methods *)

Definition list_teams (self : t) (prefer_rest : bool)
  : M (FathomResponse Payload) :=
  if prefer_rest then
    result <- list_teams_rest self ;;
    if success result then ret result
    else list_teams_sdk self
  else
    result <- list_teams_sdk self ;;
    if success result then ret result
    else list_teams_rest self.

Definition list_meetings (self : t) (prefer_rest : bool) (kwargs : Kwargs)
  : M (FathomResponse Payload) :=
  if prefer_rest then
    result <- list_meetings_rest self kwargs ;;
    if success result then ret result
    else list_meetings_sdk self kwargs
  else
    result <- list_meetings_sdk self kwargs ;;
    if success result then ret result
    else list_meetings_rest self kwargs.

(** *** Utility methods *)

Definition get_api_key_info (self : t) : gmap string PyVal :=
  <[ "length" := VInt (PyStr.len (api_key self)) ]>
  (<[ "prefix" := VStr (PyStr.slice_to 10 (api_key self) +:+ "...") ]>
  {[ "sdk_client_available" :=
       VBool (match sdk_client self with Some _ => true | None => false end) ]}).


End FathomConnection.
Arguments t : clear implicits.
End FathomConnection.

(** ** Exceptions that [except Exception] does not catch *)

(** Whether the class of [e] derives from [Exception]. Of the built-in
    classes, [BaseException] itself, [BaseExceptionGroup],
    [GeneratorExit], [KeyboardInterrupt] and [SystemExit] do not; a class
    of any other name is taken to derive from [Exception]. *)
Definition is_Exception (e : Exn) : bool :=
  negb (String.eqb (exn_class e) "BaseException"
        || String.eqb (exn_class e) "BaseExceptionGroup"
        || String.eqb (exn_class e) "GeneratorExit"
        || String.eqb (exn_class e) "KeyboardInterrupt"
        || String.eqb (exn_class e) "SystemExit").

Definition KeyboardInterrupt : Exn := mkExn "KeyboardInterrupt" "".

Section ExceptException.
Context {W Sdk : Type}.

(** [try: body  except Exception as e: handler(e)], when [body] may
    raise anything: what is not an instance of [Exception] is not
    handled and leaves the statement as it came. *)
Definition try_except_Exception {A} (body : M (W:=W) (Sdk:=Sdk) A)
    (handler : Exn -> M (W:=W) (Sdk:=Sdk) A) : M (W:=W) (Sdk:=Sdk) A :=
  fun st =>
    match body st with
    | (inl e, st') => if is_Exception e then handler e st' else (inl e, st')
    | (inr a, st') => (inr a, st')
    end.

End ExceptException.

(** The four primitives when the SDK and [requests.get] may raise
    anything, also what is not an instance of [Exception]. They are
    those of [FathomConnection] with the handler told to look at the
    class of the exception. *)
Module Interruptible.
Section Interruptible.
Context {W Sdk Payload : Type} `{!Service W Sdk Payload}.
Local Abbreviation M := (M (W:=W) (Sdk:=Sdk)).

Import FathomConnection.

Definition list_teams_sdk (self : FathomConnection.t Sdk)
  : M (FathomResponse Payload) :=
  match sdk_client self with
  | None =>
      ret {| success := false; data := None;
             error := Some "SDK client not initialized";
             method := "sdk"; status_code := None |}
  | Some client =>
      try_except_Exception
        (response <- external (SdkListTeams client) (sdk_list_teams client) ;;
         ret {| success := true; data := Some response; error := None;
                method := "sdk"; status_code := None |})
        (fun e =>
           ret {| success := false; data := None; error := Some (exn_str e);
                  method := "sdk"; status_code := None |})
  end.

Definition list_meetings_sdk (self : FathomConnection.t Sdk)
    (filters : Kwargs) : M (FathomResponse Payload) :=
  match sdk_client self with
  | None =>
      ret {| success := false; data := None;
             error := Some "SDK client not initialized";
             method := "sdk"; status_code := None |}
  | Some client =>
      try_except_Exception
        (response <- external (SdkListMeetings client filters)
                              (sdk_list_meetings client filters) ;;
         ret {| success := true; data := Some response; error := None;
                method := "sdk"; status_code := None |})
        (fun e =>
           ret {| success := false; data := None; error := Some (exn_str e);
                  method := "sdk"; status_code := None |})
  end.

Definition list_teams_rest (self : FathomConnection.t Sdk)
  : M (FathomResponse Payload) :=
  try_except_Exception
    (let url := base_url self +:+ "/teams" in
     response <- external (RequestsGet url (rest_headers self) None)
                          (requests_get url (rest_headers self) None) ;;
     d <- (if resp_status_code response =? 200
           then j <- lift (resp_json response) ;; ret (Some j)
           else ret None) ;;
     ret {| success := resp_status_code response =? 200;
            data := d;
            error := if negb (resp_status_code response =? 200)
                     then Some (resp_text response) else None;
            method := "rest";
            status_code := Some (resp_status_code response) |})
    (fun e =>
       ret {| success := false; data := None; error := Some (exn_str e);
              method := "rest"; status_code := None |}).

Definition list_meetings_rest (self : FathomConnection.t Sdk)
    (params : Kwargs) : M (FathomResponse Payload) :=
  try_except_Exception
    (let url := base_url self +:+ "/meetings" in
     response <- external (RequestsGet url (rest_headers self) (Some params))
                          (requests_get url (rest_headers self) (Some params)) ;;
     d <- (if resp_status_code response =? 200
           then j <- lift (resp_json response) ;; ret (Some j)
           else ret None) ;;
     ret {| success := resp_status_code response =? 200;
            data := d;
            error := if negb (resp_status_code response =? 200)
                     then Some (resp_text response) else None;
            method := "rest";
            status_code := Some (resp_status_code response) |})
    (fun e =>
       ret {| success := false; data := None; error := Some (exn_str e);
              method := "rest"; status_code := None |}).

End Interruptible.
End Interruptible.

(** ** Services that raise instances of [Exception] only *)

Section OnlyException.
Context {W Sdk Payload : Type} `{!Service W Sdk Payload}.

(** Whatever the SDK calls, [requests.get] and [response.json()] raise
    is an instance of [Exception]. *)
Definition raises_only_Exception : Prop :=
  (forall c w e w', sdk_list_teams c w = (inl e, w') -> is_Exception e = true) /\
  (forall c filters w e w',
     sdk_list_meetings c filters w = (inl e, w') -> is_Exception e = true) /\
  (forall url headers params w e w',
     requests_get url headers params w = (inl e, w') -> is_Exception e = true) /\
  (forall url headers params w response w' e,
     requests_get url headers params w = (inr response, w') ->
     resp_json response = inl e -> is_Exception e = true).

End OnlyException.

(** ** Display utilities ([display_utils.py])

    The symbols outside Latin-1 that start some lines are written as
    their UTF-8 bytes; nothing here measures or slices them. *)

(** What [str()] gives for the members of the SDK's enumerations. *)
Class SdkEnumText := {
  domains_type_text : ListMeetingsCalendarInviteesDomainsType -> string;
  meeting_type_text : MeetingType -> string
}.

(** [str(v)], which is also what an f-string inserts for [{v}]. *)
Definition py_str `{!SdkEnumText} (v : PyVal) : string :=
  match v with
  | VNone => "None"
  | VBool true => "True"
  | VBool false => "False"
  | VInt z => pretty z
  | VStr s => s
  | VDomainsType d => domains_type_text d
  | VMeetingType m => meeting_type_text m
  end.

Definition KeyError (key : string) : Exn :=
  mkExn "KeyError" ("'" +:+ key +:+ "'").

(** A value met while a meeting is displayed: a string, [None], or
    anything else, of which only [callable(v)] and [str(v)] matter. *)
Inductive PyObj :=
| OStr (s : string)
| ONone
| OOther (is_callable : bool) (text : string).

(** A meeting as [print_meeting_summary] looks at it: an object with a
    [__dict__], given by the names of [dir(meeting)] in that order with
    the value [getattr] returns for each; a dictionary, given by its
    items in order, each key by its [str()]; or anything else. *)
Inductive Meeting :=
| MObject (attributes : list (string * PyObj))
| MDict (items : list (string * PyObj))
| MOther.

(** [xs[:n]] on a list: the first [n] elements, or all but the last
    [-n] when [n] is negative. *)
Definition list_slice_to {A} (n : Z) (xs : list A) : list A :=
  if 0 <=? n then take (Z.to_nat n) xs
  else take (length xs - Z.to_nat (- n)) xs.

(** [enumerate(xs, start)] *)
Fixpoint enumerate {A} (xs : list A) (start : Z) : list (Z * A) :=
  match xs with
  | [] => []
  | x :: xs' => (start, x) :: enumerate xs' (start + 1)
  end.

Module Display.
Section Display.
Context {W Sdk : Type} `{!SdkEnumText}.
Local Abbreviation M := (M (W:=W) (Sdk:=Sdk)).

(** [d[key]] *)
Definition getitem (d : gmap string PyVal) (key : string) : M PyVal :=
  match d !! key with
  | Some v => ret v
  | None => raise (KeyError key)
  end.

Definition print_header (text : string) (width : Z) : M unit :=
  print (PyStr.mul "=" width) ;;
  print text ;;
  print (PyStr.mul "=" width).

Definition print_subheader (text : string) (width : Z) : M unit :=
  print (PyStr.nl +:+ PyStr.mul "=" width) ;;
  print text ;;
  print (PyStr.mul "=" width).

Definition print_success (message : string) : M unit :=
  print ("✅ " +:+ message).

Definition print_error (message : string) : M unit :=
  print ("❌ " +:+ message).

Definition print_info (message : string) : M unit :=
  print ("ℹ️  " +:+ message).

Definition print_debug (message : string) : M unit :=
  print ("🔍 " +:+ message).

(** [value] is the [str()] of the value that is passed. *)
Definition print_result (label value : string) (indent : Z) : M unit :=
  let spaces := PyStr.mul " " indent in
  print (spaces +:+ label +:+ ": " +:+ value).

Definition print_api_key_info (api_info : gmap string PyVal) : M unit :=
  length <- getitem api_info "length" ;;
  print_success ("API key loaded (length: " +:+ py_str length +:+ ")") ;;
  available <- getitem api_info "sdk_client_available" ;;
  print_success ("SDK client available: " +:+ py_str available).

(** [if result.status_code:] holds for an integer other than zero. *)
Definition print_response_summary {Payload}
    (result : FathomResponse Payload) (method_name : string) : M unit :=
  if success result then
    print_success (method_name +:+ " successful via " +:+ method result) ;;
    match status_code result with
    | Some code =>
        if negb (code =? 0) then print_result "Status Code" (pretty code) 2
        else ret tt
    | None => ret tt
    end
  else
    print_error (method_name +:+ " failed via " +:+ method result) ;;
    print_result "Error" (default "None" (error result)) 2 ;;
    match status_code result with
    | Some code =>
        if negb (code =? 0) then print_result "Status Code" (pretty code) 2
        else ret tt
    | None => ret tt
    end.

Definition print_meeting_summary (meetings : list Meeting) (max_display : Z)
  : M unit :=
  let count := Z.of_nat (length meetings) in
  if count =? 0 then print_info "No meetings found in response"
  else
    print_success ("Found " +:+ pretty count +:+ " meeting(s)") ;;
    for_each (enumerate (list_slice_to max_display meetings) 1)
      (fun '(i, meeting) =>
         print (PyStr.nl +:+ "  Meeting " +:+ pretty i +:+ ":") ;;
         match meeting with
         | MObject attributes =>
             for_each attributes (fun '(attr, value) =>
               if negb (PyStr.startswith "_" attr)
                  && negb (match value with
                           | OOther is_callable _ => is_callable
                           | _ => false
                           end)
               then
                 match value with
                 | ONone => ret tt
                 | OStr s =>
                     if 80 <? PyStr.len s
                     then print ("    " +:+ attr +:+ ": "
                                 +:+ PyStr.slice_to 80 s +:+ "...")
                     else print ("    " +:+ attr +:+ ": " +:+ s)
                 | OOther _ text => print ("    " +:+ attr +:+ ": " +:+ text)
                 end
               else ret tt)
         | MDict items =>
             for_each items (fun '(key, value) =>
               match value with
               | OStr s =>
                   if 100 <? PyStr.len s
                   then print ("    " +:+ key +:+ ": "
                               +:+ PyStr.slice_to 100 s +:+ "...")
                   else print ("    " +:+ key +:+ ": " +:+ s)
               | ONone => print ("    " +:+ key +:+ ": " +:+ "None")
               | OOther _ text => print ("    " +:+ key +:+ ": " +:+ text)
               end)
         | MOther => ret tt
         end) ;;
    if max_display <? count
    then print (PyStr.nl +:+ "  ... and " +:+ pretty (count - max_display)
                +:+ " more meeting(s)")
    else ret tt.

Definition print_suggestions (suggestions : list string) : M unit :=
  print (PyStr.nl +:+ "💡 Suggestions:") ;;
  for_each (enumerate suggestions 1) (fun '(i, suggestion) =>
    print (pretty i +:+ ". " +:+ suggestion)).

Definition print_completion_message : M unit :=
  print (PyStr.nl +:+ PyStr.mul "=" 60) ;;
  print "✅ Test completed successfully!" ;;
  print (PyStr.mul "=" 60).

End Display.
End Display.

(** ** The API test script ([test_api.py]) *)

Module TestApi.
Section TestApi.
Context {W Sdk : Type} `{!SdkEnumText}.
Local Abbreviation M := (M (W:=W) (Sdk:=Sdk)).

Import Display.

(** [print()] writes an empty line. *)
Definition test_connection_and_api_key (conn : FathomConnection.t Sdk)
  : M unit :=
  print_header "Fathom.ai API Connection Test" 60 ;;
  let api_info := FathomConnection.get_api_key_info conn in
  print_api_key_info api_info ;;
  print "" ;;
  print_subheader "API Key Information" 60 ;;
  prefix <- getitem api_info "prefix" ;;
  print_result "API Key starts with" (py_str prefix) 2 ;;
  length <- getitem api_info "length" ;;
  print_result "API Key length" (py_str length) 2 ;;
  available <- getitem api_info "sdk_client_available" ;;
  print_result "SDK Client Available" (py_str available) 2 ;;
  print "".

End TestApi.
End TestApi.

(** ** What the outcomes of the external calls become *)

Section Outcomes.
Context {W Sdk Payload : Type}.

(** The state after an external call [c] that left the world as [w]. *)
Definition after_call (c : Call Sdk) (w : W) (st : State W Sdk)
  : State W Sdk :=
  {| world := w; calls := calls st ++ [c]; stdout := stdout st;
     environ := environ st; home_dotenv := home_dotenv st |}.

(** The state after some lines were printed. *)
Definition after_print (lines : list string) (st : State W Sdk)
  : State W Sdk :=
  {| world := world st; calls := calls st; stdout := stdout st ++ lines;
     environ := environ st; home_dotenv := home_dotenv st |}.

(** The envelope of an SDK call, from what the SDK did. *)
Definition sdk_outcome (r : Exn + Payload) : FathomResponse Payload :=
  match r with
  | inl e => failed (exn_str e) "sdk"
  | inr response => succeeded response "sdk"
  end.

(** The envelope of a REST call, from what [requests.get] did. *)
Definition rest_outcome (r : Exn + Response Payload)
  : FathomResponse Payload :=
  match r with
  | inl e => failed (exn_str e) "rest"
  | inr response =>
      if resp_status_code response =? 200 then
        match resp_json response with
        | inl e => failed (exn_str e) "rest"
        | inr j => {| success := true; data := Some j; error := None;
                      method := "rest"; status_code := Some 200 |}
        end
      else {| success := false; data := None;
              error := Some (resp_text response); method := "rest";
              status_code := Some (resp_status_code response) |}
  end.

(** The number of calls that have left the process so far. *)
Definition attempts (st : State W Sdk) : nat := length (calls st).

End Outcomes.

(** ** What the debug transport is expected to print *)

(** The name of a header mentions [word] when its lower-case form has
    [word] somewhere inside. *)
Definition mentions (word name : string) : Prop :=
  exists pre post, PyStr.lower name = pre +:+ word +:+ post.

(** The line printed for one header, as the loop body computes it. *)
Definition header_line (key value : string) : string :=
  if PyStr.contains "auth" (PyStr.lower key)
     || PyStr.contains "key" (PyStr.lower key)
  then if 20 <? PyStr.len value
       then "  " +:+ key +:+ ": " +:+ PyStr.slice_to 20 value +:+ "..."
       else "  " +:+ key +:+ ": " +:+ value
  else "  " +:+ key +:+ ": " +:+ value.

(** ** What the meeting summary is expected to print *)

(** The line of one attribute of a meeting object, if it gets one:
    private names, callables and [None] get none; a string of more than
    80 characters is cut. *)
Definition attribute_line (entry : string * PyObj) : option string :=
  let '(attr, value) := entry in
  if PyStr.startswith "_" attr then None
  else match value with
       | ONone => None
       | OStr s =>
           Some ("    " +:+ attr +:+ ": " +:+
                 (if 80 <? PyStr.len s then PyStr.slice_to 80 s +:+ "..."
                  else s))
       | OOther true _ => None
       | OOther false text => Some ("    " +:+ attr +:+ ": " +:+ text)
       end.

(** The line of one item of a meeting dictionary; a string of more than
    100 characters is cut. *)
Definition item_line (entry : string * PyObj) : string :=
  let '(key, value) := entry in
  "    " +:+ key +:+ ": " +:+
  match value with
  | OStr s => if 100 <? PyStr.len s then PyStr.slice_to 100 s +:+ "..." else s
  | ONone => "None"
  | OOther _ text => text
  end.

(** The lines under the heading of one meeting. *)
Definition meeting_lines (meeting : Meeting) : list string :=
  match meeting with
  | MObject attributes => omap attribute_line attributes
  | MDict items => item_line <$> items
  | MOther => []
  end.

(** The heading and the lines of the meeting at index [i], counted from
    zero, of those that are shown. *)
Definition meeting_block (i : nat) (meeting : Meeting) : list string :=
  (PyStr.nl +:+ "  Meeting " +:+ pretty (Z.of_nat i + 1) +:+ ":")
  :: meeting_lines meeting.

(** ** What a [created_after] value denotes

    The value is sent as an ISO 8601 timestamp whose suffix [Z] names
    UTC: [YYYY-MM-DDTHH:MM:SS], an optional fraction of six digits, and
    [Z]. *)

(** The number written by [s] in decimal digits, read after [acc]. *)
Fixpoint digits_value (acc : Z) (s : string) : option Z :=
  match s with
  | EmptyString => Some acc
  | String c s' =>
      let n := Z.of_N (N_of_ascii c) in
      if (48 <=? n) && (n <=? 57) then digits_value (acc * 10 + (n - 48)) s'
      else None
  end.

(** The [len] characters of [s] from position [start], as a number. *)
Definition number_at (start len : nat) (s : string) : option Z :=
  let field := String.substring start len s in
  if (String.length field =? len)%nat then digits_value 0 field else None.

(** The instant a timestamp denotes, in microseconds since
    1970-01-01T00:00:00 UTC, if it is written as above. *)
Definition timestamp_of_iso (s : string) : option Z :=
  y ← number_at 0 4 s;
  mo ← number_at 5 2 s;
  d ← number_at 8 2 s;
  h ← number_at 11 2 s;
  mi ← number_at 14 2 s;
  sec ← number_at 17 2 s;
  us ← (if String.eqb (String.substring 19 8 s) "Z" then Some 0
        else if String.eqb (String.substring 19 1 s) "."
                && String.eqb (String.substring 26 8 s) "Z"
             then number_at 20 6 s
             else None);
  if String.eqb (String.substring 4 1 s) "-"
     && String.eqb (String.substring 7 1 s) "-"
     && String.eqb (String.substring 10 1 s) "T"
     && String.eqb (String.substring 13 1 s) ":"
     && String.eqb (String.substring 16 1 s) ":"
  then Some (Datetime.to_microseconds
               {| Datetime.year := y; Datetime.month := mo; Datetime.day := d;
                  Datetime.hour := h; Datetime.minute := mi;
                  Datetime.second := sec; Datetime.microsecond := us |})
  else None.

(** Two instants are within one second of each other. *)
Definition within_one_second (t1 t2 : Z) : bool :=
  Z.abs (t1 - t2) <=? 1000000.

(** ** Concrete services, for running the client *)

Module Scenario.

(** A world in which every SDK call and every HTTP request has a fixed
    outcome. *)
Record Scripted := mkScripted {
  sdk_script : Exn + string;
  http_script : Exn + Response string
}.

#[export] Instance scripted : Service Scripted unit string := {|
  sdk_new := fun _ _ => inr tt;
  sdk_list_teams := fun _ w => (sdk_script w, w);
  sdk_list_meetings := fun _ _ w => (sdk_script w, w);
  requests_get := fun _ _ _ w => (http_script w, w)
|}.

Definition start (w : Scripted) (env : gmap string string)
  : State Scripted unit :=
  {| world := w; calls := []; stdout := []; environ := env;
     home_dotenv := [] |}.

Definition connection (client : option unit) : FathomConnection.t unit :=
  {| FathomConnection.debug := false;
     FathomConnection.api_key := "secret";
     FathomConnection.base_url := "https://api.fathom.ai/external/v1";
     FathomConnection.sdk_client := client;
     FathomConnection.rest_headers :=
       <[ "x-api-key" := "secret" ]> {[ "Accept" := "application/json" ]} |}.

Definition timeout_error : Exn := mkExn "ConnectionError" "connection timed out".

Definition json_error : Exn :=
  mkExn "JSONDecodeError" "Expecting value: line 1 column 1 (char 0)".

(** Both paths fail by raising. *)
Definition all_down : Scripted :=
  {| sdk_script := inl timeout_error; http_script := inl timeout_error |}.

(** The server answers 500. *)
Definition server_error : Scripted :=
  {| sdk_script := inl timeout_error;
     http_script := inr {| resp_status_code := 500;
                           resp_text := "Internal Server Error";
                           resp_json := inl json_error |} |}.

(** The server answers 200 with a body that is not JSON. *)
Definition ok_not_json : Scripted :=
  {| sdk_script := inl timeout_error;
     http_script := inr {| resp_status_code := 200;
                           resp_text := "<html>OK</html>";
                           resp_json := inl json_error |} |}.

(** The server answers 200 with a JSON body. *)
Definition ok_json : Scripted :=
  {| sdk_script := inr "teams";
     http_script := inr {| resp_status_code := 200;
                           resp_text := "{}";
                           resp_json := inr "{}" |} |}.

(** A connection without an SDK client, and one with. *)
Definition no_sdk : FathomConnection.t unit := connection None.
Definition with_sdk : FathomConnection.t unit := connection (Some tt).

(** A fresh process: nothing called, nothing printed, no home file, and
    only [env] in the environment. *)
Definition at_server_error : State Scripted unit := start server_error ∅.
Definition at_ok_not_json : State Scripted unit := start ok_not_json ∅.
Definition at_all_down : State Scripted unit := start all_down ∅.
Definition key_in_shell : State Scripted unit :=
  start ok_json {[ "FATHOM_API_KEY" := "from-the-shell" ]}.

(** A transport that answers every request with the URL it was asked
    for. *)
#[export] Instance echo : Httpx.BaseTransport Scripted unit string unit :=
  fun _ request => ret (Httpx.url request).

Definition api_request : Httpx.Request :=
  {| Httpx.method := "GET";
     Httpx.url := "https://api.fathom.ai/external/v1/teams";
     Httpx.headers := [("x-api-key", "abcdefghijklmnopqrstuvwxyz");
                       ("accept", "application/json")] |}.

Definition debugging : DebugTransport.t unit :=
  {| DebugTransport.transport := tt; DebugTransport.debug := true |}.

Definition quiet : DebugTransport.t unit :=
  {| DebugTransport.transport := tt; DebugTransport.debug := false |}.



(** The members of the SDK enumerations shown by their names. *)
#[export] Instance enum_names : SdkEnumText := {|
  domains_type_text := fun d =>
    match d with
    | ONE_OR_MORE_EXTERNAL => "ONE_OR_MORE_EXTERNAL"
    | ONLY_INTERNAL => "ONLY_INTERNAL"
    end;
  meeting_type_text := fun m =>
    match m with
    | MT_ALL => "ALL" | MT_INTERNAL => "INTERNAL" | MT_EXTERNAL => "EXTERNAL"
    end
|}.

(** A process with a key in its home file only, bound twice. *)
Definition key_in_home_file : State Scripted unit :=
  {| world := ok_json; calls := []; stdout := []; environ := ∅;
     home_dotenv := [("FATHOM_API_KEY", Some "old-key");
                     ("OTHER", None);
                     ("FATHOM_API_KEY", Some "new-key")] |}.

(** A process whose shell exports an empty key, with a key in the home
    file. *)
Definition empty_key_in_shell : State Scripted unit :=
  {| world := ok_json; calls := []; stdout := [];
     environ := {[ "FATHOM_API_KEY" := "" ]};
     home_dotenv := [("FATHOM_API_KEY", Some "file-key")] |}.

(** Two requests that differ behind the 20th character of the key. *)
Definition other_api_request : Httpx.Request :=
  {| Httpx.method := "GET";
     Httpx.url := "https://api.fathom.ai/external/v1/teams";
     Httpx.headers := [("x-api-key", "abcdefghijklmnopqrst0123456789");
                       ("accept", "application/json")] |}.

(** Three meetings: a dictionary, an object and something else. *)
Definition sample_meetings : list Meeting :=
  [MDict [("title", OStr "Weekly sync"); ("url", ONone)];
   MObject [("__class__", OOther true "<class 'Meeting'>");
            ("_secret", OStr "hidden");
            ("dict", OOther true "<bound method>");
            ("recording_id", OOther false "42");
            ("summary", ONone);
            ("title", OStr "Planning")];
   MOther].

(** The SDK call and the HTTP request are interrupted from the
    keyboard. *)
Definition interrupted : Scripted :=
  {| sdk_script := inl KeyboardInterrupt;
     http_script := inl KeyboardInterrupt |}.

Definition at_interrupted : State Scripted unit := start interrupted ∅.

(** A machine of which only the clock matters. *)
Record WallClock := mkWallClock {
  instant : Z;
  zone : Z
}.

#[export] Instance wall_clock : Clock WallClock := {|
  time_us := instant;
  utcoffset := zone
|}.

(** A quarter of a second after 10:00:00 UTC on 2026-06-15. *)
Definition morning : Z :=
  Datetime.to_microseconds
    {| Datetime.year := 2026; Datetime.month := 6; Datetime.day := 15;
       Datetime.hour := 10; Datetime.minute := 0; Datetime.second := 0;
       Datetime.microsecond := 250000 |}.

(** That instant on a machine in Berlin, two hours ahead of UTC in
    summer, and on one in Reykjavik, which keeps UTC. *)
Definition in_berlin : State WallClock unit :=
  {| world := {| instant := morning; zone := 7200 |};
     calls := []; stdout := []; environ := ∅; home_dotenv := [] |}.

Definition in_reykjavik : State WallClock unit :=
  {| world := {| instant := morning; zone := 0 |};
     calls := []; stdout := []; environ := ∅; home_dotenv := [] |}.

(** Seven days, in microseconds. *)
Definition seven_days : Z := 7 * Datetime.US_PER_DAY.

End Scenario.

(** ** Lemmas on the primitive operations *)

Section PrimitiveFacts.
Context {W Sdk Payload : Type} `{!Service W Sdk Payload}.
Implicit Types (self : FathomConnection.t Sdk) (st : State W Sdk).

Import FathomConnection.

Lemma list_teams_sdk_run self st :
  list_teams_sdk self st =
  match sdk_client self with
  | None => (inr (failed "SDK client not initialized" "sdk"), st)
  | Some c =>
      let r := sdk_list_teams c (world st) in
      (inr (sdk_outcome r.1), after_call (SdkListTeams c) r.2 st)
  end.
Proof.
  unfold list_teams_sdk. destruct (sdk_client self) as [c|]; [|done].
  unfold try_except, bind, external, ret, after_call; cbn.
  by destruct (sdk_list_teams c (world st)) as [[e|p] w'].
Qed.

Lemma list_meetings_sdk_run self filters st :
  list_meetings_sdk self filters st =
  match sdk_client self with
  | None => (inr (failed "SDK client not initialized" "sdk"), st)
  | Some c =>
      let r := sdk_list_meetings c filters (world st) in
      (inr (sdk_outcome r.1), after_call (SdkListMeetings c filters) r.2 st)
  end.
Proof.
  unfold list_meetings_sdk. destruct (sdk_client self) as [c|]; [|done].
  unfold try_except, bind, external, ret, after_call; cbn.
  by destruct (sdk_list_meetings c filters (world st)) as [[e|p] w'].
Qed.

Lemma list_teams_rest_run self st :
  let url := base_url self +:+ "/teams" in
  let r := requests_get url (rest_headers self) None (world st) in
  list_teams_rest self st =
  (inr (rest_outcome r.1),
   after_call (RequestsGet url (rest_headers self) None) r.2 st).
Proof.
  unfold list_teams_rest, try_except, bind, external, ret, lift, after_call;
    cbn.
  destruct (requests_get _ _ _ _) as [[e|response] w']; cbn; [done|].
  destruct (resp_status_code response =? 200) eqn:E; cbn; [|done].
  apply Z.eqb_eq in E. rewrite E.
  by destruct (resp_json response).
Qed.

Lemma list_meetings_rest_run self params st :
  let url := base_url self +:+ "/meetings" in
  let r := requests_get url (rest_headers self) (Some params) (world st) in
  list_meetings_rest self params st =
  (inr (rest_outcome r.1),
   after_call (RequestsGet url (rest_headers self) (Some params)) r.2 st).
Proof.
  unfold list_meetings_rest, try_except, bind, external, ret, lift,
    after_call; cbn.
  destruct (requests_get _ _ _ _) as [[e|response] w']; cbn; [done|].
  destruct (resp_status_code response =? 200) eqn:E; cbn; [|done].
  apply Z.eqb_eq in E. rewrite E.
  by destruct (resp_json response).
Qed.

Lemma sdk_outcome_ok (r : Exn + Payload) : envelope_ok (sdk_outcome r).
Proof. by destruct r. Qed.

Lemma rest_outcome_ok (r : Exn + Response Payload) :
  envelope_ok (rest_outcome r).
Proof.
  destruct r as [e|response]; cbn; [done|].
  destruct (_ =? _); [|done]. by destruct (resp_json response).
Qed.

Lemma failed_ok (msg tag : string) :
  envelope_ok (failed (Payload:=Payload) msg tag).
Proof. done. Qed.

End PrimitiveFacts.

(** ** The composed operations and the envelope *)

Section ClientClaims.
Context {W Sdk Payload : Type} `{!Service W Sdk Payload}.
Implicit Types (self : FathomConnection.t Sdk) (st : State W Sdk).

Import FathomConnection.

(** Every primitive returns an envelope (it never raises), that
    envelope obeys the invariant, and at most one call leaves the
    process. *)
Lemma primitive_returns self (kwargs : Kwargs) st
    (op : M (W:=W) (Sdk:=Sdk) (FathomResponse Payload)) :
  op = list_teams_sdk self \/ op = list_meetings_sdk self kwargs \/
  op = list_teams_rest self \/ op = list_meetings_rest self kwargs ->
  exists r st', op st = (inr r, st') /\ envelope_ok r /\
                (attempts st' <= attempts st + 1)%nat.
Proof.
  unfold attempts.
  intros [->|[->|[->| ->]]].
  - rewrite list_teams_sdk_run. destruct (sdk_client self).
    + eexists _, _. split; [done|]. split; [apply sdk_outcome_ok|].
      cbn. rewrite length_app. cbn. lia.
    + eexists _, _. split; [done|]. split; [apply failed_ok|lia].
  - rewrite list_meetings_sdk_run. destruct (sdk_client self).
    + eexists _, _. split; [done|]. split; [apply sdk_outcome_ok|].
      cbn. rewrite length_app. cbn. lia.
    + eexists _, _. split; [done|]. split; [apply failed_ok|lia].
  - rewrite list_teams_rest_run.
    eexists _, _. split; [done|]. split; [apply rest_outcome_ok|].
    cbn. rewrite length_app. cbn. lia.
  - rewrite list_meetings_rest_run.
    eexists _, _. split; [done|]. split; [apply rest_outcome_ok|].
    cbn. rewrite length_app. cbn. lia.
Qed.

(** The fallback composition of two computations, as both composed
    operations are written. *)
Lemma fallback_run (preferred other : M (W:=W) (Sdk:=Sdk) (FathomResponse Payload))
    st r1 st1 :
  preferred st = (inr r1, st1) ->
  (result <- preferred ;; if success result then ret result else other) st =
  if success r1 then (inr r1, st1) else other st1.
Proof. unfold bind, ret. intros ->. by destruct (success r1). Qed.

(** C1. [list_teams(prefer_rest)] and [list_meetings(prefer_rest,
    **kwargs)] run the preferred path first (REST when [prefer_rest],
    the SDK otherwise). When its envelope has [success = True] the
    composed operation returns that envelope and leaves the state the
    preferred path left, so nothing else ran. Otherwise the other path
    runs once, from that state and with the same parameters, and its
    envelope is returned whatever its [success]. At most two calls
    leave the process. *)
Theorem composed_prefers_then_falls_back self (prefer_rest : bool)
    (kwargs : Kwargs) st :
  let run composed preferred other :=
    exists r1 st1,
      preferred st = (inr r1, st1) /\
      ((success r1 = true /\ composed st = (inr r1, st1)) \/
       (success r1 = false /\
        exists r2 st2, other st1 = (inr r2, st2) /\
                       composed st = (inr r2, st2))) /\
      (attempts (composed st).2 <= attempts st + 2)%nat in
  run (list_teams self prefer_rest)
      (if prefer_rest then list_teams_rest self else list_teams_sdk self)
      (if prefer_rest then list_teams_sdk self else list_teams_rest self)
  /\
  run (list_meetings self prefer_rest kwargs)
      (if prefer_rest then list_meetings_rest self kwargs
       else list_meetings_sdk self kwargs)
      (if prefer_rest then list_meetings_sdk self kwargs
       else list_meetings_rest self kwargs).
Proof.
  assert (Hgen : forall preferred other,
    (preferred = list_teams_sdk self \/ preferred = list_meetings_sdk self kwargs \/
     preferred = list_teams_rest self \/ preferred = list_meetings_rest self kwargs) ->
    (other = list_teams_sdk self \/ other = list_meetings_sdk self kwargs \/
     other = list_teams_rest self \/ other = list_meetings_rest self kwargs) ->
    let composed :=
      (result <- preferred ;; if success result then ret result else other) in
    exists r1 st1,
      preferred st = (inr r1, st1) /\
      ((success r1 = true /\ composed st = (inr r1, st1)) \/
       (success r1 = false /\
        exists r2 st2, other st1 = (inr r2, st2) /\
                       composed st = (inr r2, st2))) /\
      (attempts (composed st).2 <= attempts st + 2)%nat).
  { intros preferred other Hp Ho composed.
    destruct (primitive_returns self kwargs st preferred Hp)
      as (r1 & st1 & E1 & _ & N1).
    destruct (primitive_returns self kwargs st1 other Ho)
      as (r2 & st2 & E2 & _ & N2).
    exists r1, st1. split; [done|].
    unfold composed. rewrite (fallback_run _ _ _ _ _ E1).
    destruct (success r1) eqn:S1.
    - split; [by left|]. cbn. lia.
    - split; [right; split; [done|]; by exists r2, st2|].
      rewrite E2. cbn. lia. }
  split; destruct prefer_rest; cbn zeta; apply Hgen; tauto.
Qed.

(** C2. Every envelope a client operation returns, from the four
    primitives and from the two composed operations, has no error when
    [success] is true and no data when [success] is false; and every
    one of these operations does return an envelope. *)
Theorem envelope_invariant self (prefer_rest : bool) (kwargs : Kwargs) st :
  let good op := exists r st', op st = (inr r, st') /\ envelope_ok r in
  good (list_teams_sdk self) /\
  good (list_meetings_sdk self kwargs) /\
  good (list_teams_rest self) /\
  good (list_meetings_rest self kwargs) /\
  good (list_teams self prefer_rest) /\
  good (list_meetings self prefer_rest kwargs).
Proof.
  assert (Hprim : forall op st0,
    (op = list_teams_sdk self \/ op = list_meetings_sdk self kwargs \/
     op = list_teams_rest self \/ op = list_meetings_rest self kwargs) ->
    exists r st', op st0 = (inr r, st') /\ envelope_ok r).
  { intros op st0 Hop.
    destruct (primitive_returns self kwargs st0 op Hop) as (r & st' & E & Hok & _).
    by exists r, st'. }
  assert (Hcomp : forall preferred other,
    (preferred = list_teams_sdk self \/ preferred = list_meetings_sdk self kwargs \/
     preferred = list_teams_rest self \/ preferred = list_meetings_rest self kwargs) ->
    (other = list_teams_sdk self \/ other = list_meetings_sdk self kwargs \/
     other = list_teams_rest self \/ other = list_meetings_rest self kwargs) ->
    exists r st',
      (result <- preferred ;; if success result then ret result else other) st
      = (inr r, st') /\ envelope_ok r).
  { intros preferred other Hp Ho.
    destruct (Hprim preferred st Hp) as (r1 & st1 & E1 & Hok1).
    rewrite (fallback_run _ _ _ _ _ E1).
    destruct (success r1); [by exists r1, st1|].
    by apply Hprim. }
  cbn zeta. repeat split; try (apply Hprim; tauto).
  - destruct prefer_rest; apply Hcomp; tauto.
  - destruct prefer_rest; apply Hcomp; tauto.
Qed.

(** C4, as the code has it. Without an SDK client, [list_teams_sdk] and
    [list_meetings_sdk] return the fixed envelope and leave the state as
    it was, so no call is made. The composed operations then make the
    REST request and nothing else. With [prefer_rest] false they are the
    REST path. With [prefer_rest] true they return the REST envelope
    when it succeeded, and the fixed envelope of the SDK path when the
    REST path failed. *)
Theorem without_sdk_client self (kwargs : Kwargs) st :
  sdk_client self = None ->
  let not_initialized :=
    failed (Payload:=Payload) "SDK client not initialized" "sdk" in
  list_teams_sdk self st = (inr not_initialized, st) /\
  list_meetings_sdk self kwargs st = (inr not_initialized, st) /\
  list_teams self false st = list_teams_rest self st /\
  list_meetings self false kwargs st = list_meetings_rest self kwargs st /\
  (exists r st', list_teams_rest self st = (inr r, st') /\
     list_teams self true st =
     (inr (if success r then r else not_initialized), st')) /\
  (exists r st', list_meetings_rest self kwargs st = (inr r, st') /\
     list_meetings self true kwargs st =
     (inr (if success r then r else not_initialized), st')) /\
  (forall prefer_rest,
     calls (list_teams self prefer_rest st).2 =
     (calls st ++ [RequestsGet (base_url self +:+ "/teams")
                               (rest_headers self) None])%list /\
     calls (list_meetings self prefer_rest kwargs st).2 =
     (calls st ++ [RequestsGet (base_url self +:+ "/meetings")
                               (rest_headers self) (Some kwargs)])%list).
Proof.
  intros Hnone not_initialized.
  assert (Ht : forall st0, list_teams_sdk self st0 = (inr not_initialized, st0)).
  { intros st0. by rewrite list_teams_sdk_run, Hnone. }
  assert (Hm : forall st0,
    list_meetings_sdk self kwargs st0 = (inr not_initialized, st0)).
  { intros st0. by rewrite list_meetings_sdk_run, Hnone. }
  assert (Ft : list_teams self false st = list_teams_rest self st).
  { unfold list_teams. by rewrite (fallback_run _ _ _ _ _ (Ht st)). }
  assert (Fm : list_meetings self false kwargs st
               = list_meetings_rest self kwargs st).
  { unfold list_meetings. by rewrite (fallback_run _ _ _ _ _ (Hm st)). }
  pose proof (list_teams_rest_run self st) as Rt.
  pose proof (list_meetings_rest_run self kwargs st) as Rm.
  cbn zeta in Rt, Rm.
  assert (Tt : list_teams self true st = _) by
    (unfold list_teams; apply (fallback_run _ _ _ _ _ Rt)).
  assert (Tm : list_meetings self true kwargs st = _) by
    (unfold list_meetings; apply (fallback_run _ _ _ _ _ Rm)).
  rewrite Ht in Tt. rewrite Hm in Tm.
  assert (Hif : forall (b : bool) (x y : FathomResponse Payload) (s : State W Sdk),
    (if b then (inr (A:=Exn) x, s) else (inr y, s))
    = (inr (if b then x else y), s)) by (by intros [|]).
  rewrite Hif in Tt, Tm.
  split; [apply Ht|]. split; [apply Hm|]. split; [apply Ft|].
  split; [apply Fm|].
  split; [by eexists _, _|].
  split; [by eexists _, _|].
  intros [|].
  - by rewrite Tt, Tm.
  - by rewrite Ft, Fm, Rt, Rm.
Qed.

End ClientClaims.

(** ** Exceptions outside [Exception] *)

Section InterruptionClaims.
Context {W Sdk Payload : Type} `{!Service W Sdk Payload}.
Implicit Types (self : FathomConnection.t Sdk) (st : State W Sdk).

Import FathomConnection.

(** Where the body raises nothing but instances of [Exception], the
    handler that looks at the class is the handler that does not. *)
Lemma try_except_Exception_agrees {A} (body : M (W:=W) (Sdk:=Sdk) A)
    (handler : Exn -> M (W:=W) (Sdk:=Sdk) A) st :
  (forall e st', body st = (inl e, st') -> is_Exception e = true) ->
  try_except_Exception body handler st = try_except body handler st.
Proof.
  intros Hbody. unfold try_except_Exception, try_except.
  destruct (body st) as [[e|a] st'] eqn:E; [|done].
  by rewrite (Hbody e st').
Qed.

(** The primitives that look at the class of the exception are the
    primitives of [FathomConnection] on every state where the service
    raises instances of [Exception] only. *)
Lemma interruptible_agrees self (filters params : Kwargs) st :
  raises_only_Exception (W:=W) (Sdk:=Sdk) (Payload:=Payload) ->
  Interruptible.list_teams_sdk self st = list_teams_sdk self st /\
  Interruptible.list_meetings_sdk self filters st
    = list_meetings_sdk self filters st /\
  Interruptible.list_teams_rest self st = list_teams_rest self st /\
  Interruptible.list_meetings_rest self params st
    = list_meetings_rest self params st.
Proof.
  intros (Hteams & Hmeetings & Hget & Hjson).
  assert (Hrest : forall url params0
      (k : Response Payload -> option Payload -> FathomResponse Payload) e st',
    (response <- external (RequestsGet url (rest_headers self) params0)
                          (requests_get url (rest_headers self) params0) ;;
     d <- (if resp_status_code response =? 200
           then j <- lift (resp_json response) ;; ret (Some j)
           else ret None) ;;
     ret (k response d)) st = (inl e, st') -> is_Exception e = true).
  { intros url params0 k e st'. unfold bind, external, lift, ret.
    destruct (requests_get _ _ _ _) as [[e0|response] w0] eqn:E.
    - intros [= <- _]. by eapply Hget.
    - destruct (_ =? _); [|done].
      destruct (resp_json response) as [e0|j] eqn:J; [|done].
      intros [= <- _]. by eapply Hjson. }
  repeat split.
  - unfold Interruptible.list_teams_sdk, list_teams_sdk.
    destruct (sdk_client self) as [c|]; [|done].
    apply try_except_Exception_agrees. intros e st'.
    unfold bind, external, ret.
    destruct (sdk_list_teams _ _) as [[e0|x] w0] eqn:E; [|done].
    intros [= <- _]. by eapply Hteams.
  - unfold Interruptible.list_meetings_sdk, list_meetings_sdk.
    destruct (sdk_client self) as [c|]; [|done].
    apply try_except_Exception_agrees. intros e st'.
    unfold bind, external, ret.
    destruct (sdk_list_meetings _ _ _) as [[e0|x] w0] eqn:E; [|done].
    intros [= <- _]. by eapply Hmeetings.
  - unfold Interruptible.list_teams_rest, list_teams_rest.
    apply try_except_Exception_agrees. intros e st'. cbv zeta.
    apply (Hrest _ _ (fun response d =>
      {| success := resp_status_code response =? 200; data := d;
         error := if negb (resp_status_code response =? 200)
                  then Some (resp_text response) else None;
         method := "rest";
         status_code := Some (resp_status_code response) |})).
  - unfold Interruptible.list_meetings_rest, list_meetings_rest.
    apply try_except_Exception_agrees. intros e st'. cbv zeta.
    apply (Hrest _ _ (fun response d =>
      {| success := resp_status_code response =? 200; data := d;
         error := if negb (resp_status_code response =? 200)
                  then Some (resp_text response) else None;
         method := "rest";
         status_code := Some (resp_status_code response) |})).
Qed.


End InterruptionClaims.

(** ** The REST path and the status code *)

Section RestClaims.
Context {W Sdk Payload : Type} `{!Service W Sdk Payload}.
Implicit Types (self : FathomConnection.t Sdk) (st : State W Sdk).

Import FathomConnection.

(** What [rest_outcome] gives for a response that arrived. *)
Lemma rest_outcome_received (response : Response Payload) :
  let r := rest_outcome (inr response) in
  (success r = true <->
   resp_status_code response = 200 /\ exists j, resp_json response = inr j) /\
  (resp_status_code response <> 200 ->
   r = {| success := false; data := None;
          error := Some (resp_text response); method := "rest";
          status_code := Some (resp_status_code response) |}) /\
  (forall j, resp_status_code response = 200 -> resp_json response = inr j ->
   r = {| success := true; data := Some j; error := None; method := "rest";
          status_code := Some 200 |}) /\
  (forall e, resp_status_code response = 200 -> resp_json response = inl e ->
   r = failed (exn_str e) "rest").
Proof.
  cbn. destruct (resp_status_code response =? 200) eqn:E.
  - apply Z.eqb_eq in E. destruct (resp_json response) as [e|j] eqn:J.
    + repeat split; try done.
      * intros (_ & j & ?). done.
      * intros e' _ [= ->]. done.
    + repeat split; try done.
      * by exists j.
      * intros j' _ [= ->]. done.
  - apply Z.eqb_neq in E. repeat split; try done. by intros [? _].
Qed.

(** C10, as the code has it. When [requests.get] returns a response, the
    REST methods return an envelope (after that one call) whose [success]
    is true exactly when the status code is 200 and [response.json()]
    decodes the body. Any other status code, 201 and 204 included, gives
    [success = False], the body text as [error], no data, and the status
    code in the envelope. A 200 whose body decodes gives the decoded data
    with status code 200; a 200 whose body does not decode gives the
    envelope of the exception [response.json()] raised. *)
Theorem rest_success_needs_200_and_json self (params : Kwargs) st :
  let received (response : Response Payload) (r : FathomResponse Payload) :=
    (success r = true <->
     resp_status_code response = 200 /\ exists j, resp_json response = inr j) /\
    (resp_status_code response <> 200 ->
     r = {| success := false; data := None;
            error := Some (resp_text response); method := "rest";
            status_code := Some (resp_status_code response) |}) /\
    (forall j, resp_status_code response = 200 -> resp_json response = inr j ->
     r = {| success := true; data := Some j; error := None; method := "rest";
            status_code := Some 200 |}) /\
    (forall e, resp_status_code response = 200 -> resp_json response = inl e ->
     r = failed (exn_str e) "rest") in
  (forall response w',
     requests_get (base_url self +:+ "/teams") (rest_headers self) None
                  (world st) = (inr response, w') ->
     exists r,
       list_teams_rest self st =
       (inr r, after_call (RequestsGet (base_url self +:+ "/teams")
                                       (rest_headers self) None) w' st) /\
       received response r)
  /\
  (forall response w',
     requests_get (base_url self +:+ "/meetings") (rest_headers self)
                  (Some params) (world st) = (inr response, w') ->
     exists r,
       list_meetings_rest self params st =
       (inr r, after_call (RequestsGet (base_url self +:+ "/meetings")
                                       (rest_headers self) (Some params))
                          w' st) /\
       received response r).
Proof.
  cbn zeta. split; intros response w' Hget.
  - exists (rest_outcome (inr response)). split.
    + rewrite list_teams_rest_run. cbn zeta. by rewrite Hget.
    + apply rest_outcome_received.
  - exists (rest_outcome (inr response)). split.
    + rewrite list_meetings_rest_run. cbn zeta. by rewrite Hget.
    + apply rest_outcome_received.
Qed.

End RestClaims.

(** ** Construction of the connection *)

Section ConstructionClaims.
Context {W Sdk Payload : Type} `{!Service W Sdk Payload}.
Implicit Types (st : State W Sdk).

Import FathomConnection.

(** A name that neither the environment nor the home file binds is still
    unbound after the file was loaded. *)
Lemma unbound_after_load_dotenv st (name : string) :
  environ st !! name = None ->
  (forall v, (name, v) ∉ home_dotenv st) ->
  (environ st ∪ omap id (dotenv_dict (home_dotenv st))) !! name = None.
Proof.
  intros Henv Hfile. apply lookup_union_None. split; [done|].
  rewrite lookup_omap.
  assert (dotenv_dict (home_dotenv st) !! name = None) as ->; [|done].
  unfold dotenv_dict. apply not_elem_of_list_to_map.
  intros Hin. apply list_elem_of_fmap in Hin as ([k v] & Hk & Hin).
  cbn in Hk. subst k. rewrite elem_of_reverse in Hin. exact (Hfile v Hin).
Qed.

(** C5, as the code has it. With no [api_key] argument, no
    [FATHOM_API_KEY] binding in the home environment file and no
    [FATHOM_API_KEY] variable already in the process environment, the
    constructor raises [ValueError]; no call has left the process and
    the world is as it was. *)
Theorem missing_api_key_fails_construction (debug : bool) st :
  environ st !! "FATHOM_API_KEY" = None ->
  (forall v, ("FATHOM_API_KEY", v) ∉ home_dotenv st) ->
  exists st',
    __init__ None debug st =
    (inl (ValueError
       "FATHOM_API_KEY not found in ~/.env or provided as parameter"), st') /\
    calls st' = calls st /\ world st' = world st.
Proof.
  intros Henv Hfile.
  pose proof (unbound_after_load_dotenv st _ Henv Hfile) as Hnone.
  unfold __init__, _load_api_key, bind, load_dotenv, getenv, raise; cbn.
  rewrite Hnone. cbn. by eexists.
Qed.

End ConstructionClaims.

(** ** Strings *)

Section StringFacts.

Lemma startswith_spec (needle hay : string) :
  PyStr.startswith needle hay = true <-> exists post, hay = needle +:+ post.
Proof.
  revert hay. induction needle as [|a needle IH]; intros hay; cbn.
  - split; [by exists hay|done].
  - destruct hay as [|b hay].
    + split; [done|]. by intros [post ?].
    + destruct (Ascii.eqb_spec a b) as [->|Hne].
      * rewrite IH. split.
        -- intros [post ->]. by exists post.
        -- intros [post [= ->]]. by exists post.
      * split; [done|]. intros [post [= ? _]]. by destruct Hne.
Qed.

Lemma contains_spec (needle hay : string) :
  PyStr.contains needle hay = true <->
  exists pre post, hay = pre +:+ needle +:+ post.
Proof.
  induction hay as [|c hay IH]; cbn.
  - rewrite orb_false_r, startswith_spec. split.
    + intros [post ->]. by exists EmptyString, post.
    + intros ([|? ?] & post & Heq); [|done]. by exists post.
  - rewrite orb_true_iff, startswith_spec, IH. split.
    + intros [[post ->]|(pre & post & ->)].
      * by exists EmptyString, post.
      * by exists (String c pre), post.
    + intros ([|c' pre] & post & Heq).
      * left. by exists post.
      * right. injection Heq as -> ->. by exists pre, post.
Qed.

Lemma slice_to_spec (n : nat) (s : string) :
  (n <= String.length s)%nat ->
  exists rest, s = PyStr.slice_to n s +:+ rest /\
               String.length (PyStr.slice_to n s) = n.
Proof.
  revert s. induction n as [|n IH]; intros s Hlen.
  - by exists s.
  - destruct s as [|c s]; [cbn in Hlen; lia|].
    destruct (IH s) as (rest & Heq & Hn); [cbn in Hlen; lia|].
    exists rest. split.
    + change (String c s = String c (PyStr.slice_to n s +:+ rest)).
      by f_equal.
    + change (S (String.length (PyStr.slice_to n s)) = S n). by f_equal.
Qed.

End StringFacts.

(** ** The debug transport *)

Section DebugClaims.
Context {W Sdk HttpxResponse T : Type}.
Context `{!Httpx.BaseTransport W Sdk HttpxResponse T}.
Implicit Types (self : DebugTransport.t T) (st : State W Sdk).

Lemma after_print_nil st : after_print [] st = st.
Proof. destruct st. unfold after_print; cbn. by rewrite app_nil_r. Qed.

Lemma after_print_app (l1 l2 : list string) st :
  after_print l2 (after_print l1 st) = after_print (l1 ++ l2) st.
Proof. unfold after_print; cbn. by rewrite app_assoc. Qed.

(** A loop whose body prints one line per element prints those lines in
    order. *)
Lemma for_each_prints {A} (xs : list A) (body : A -> M unit)
    (line : A -> string) st :
  (forall x, body x = print (line x)) ->
  for_each xs body st = (inr tt, after_print (line <$> xs) st).
Proof.
  intros Hbody. revert st. induction xs as [|x xs IH]; intros st; cbn.
  - unfold ret. by rewrite after_print_nil.
  - unfold bind. rewrite Hbody. cbn.
    change (for_each xs body (after_print [line x] st) =
            (inr tt, after_print (line x :: (line <$> xs)) st)).
    by rewrite IH, after_print_app.
Qed.

(** The state the wrapped transport is entered with. *)
Lemma handle_request_run self (request : Httpx.Request) st :
  DebugTransport.handle_request self request st =
  Httpx.handle_request (DebugTransport.transport self) request
    (if DebugTransport.debug self
     then after_print
            (("DEBUG: " +:+ Httpx.method request +:+ " " +:+ Httpx.url request)
             :: ((fun kv => header_line kv.1 kv.2) <$> Httpx.headers request))
            st
     else st).
Proof.
  unfold DebugTransport.handle_request, bind.
  destruct (DebugTransport.debug self); [|done].
  cbn.
  rewrite (for_each_prints _ _ (fun kv => header_line kv.1 kv.2)).
  - f_equal. unfold after_print; cbn. by rewrite <- app_assoc.
  - intros [key value]. unfold header_line. cbn. by destruct (_ || _).
Qed.

(** The line of a header whose name mentions neither word, or whose value
    has at most 20 characters, carries the value as it is; the line of a
    header whose name mentions one of them and whose value is longer
    carries the first 20 characters and the ellipsis. *)
Lemma header_line_cases (key value : string) :
  exists shown,
    header_line key value = "  " +:+ key +:+ ": " +:+ shown /\
    ((mentions "auth" key \/ mentions "key" key) /\
     (20 < String.length value)%nat ->
     exists first20 rest,
       value = first20 +:+ rest /\ String.length first20 = 20%nat /\
       shown = first20 +:+ "...") /\
    ((String.length value <= 20)%nat \/
     (~ mentions "auth" key /\ ~ mentions "key" key) ->
     shown = value).
Proof.
  unfold header_line, mentions, PyStr.len.
  destruct (PyStr.contains "auth" (PyStr.lower key)
            || PyStr.contains "key" (PyStr.lower key)) eqn:Hname.
  - destruct (20 <? Z.of_nat (String.length value)) eqn:Hlen.
    + apply Z.ltb_lt in Hlen.
      destruct (slice_to_spec 20 value) as (rest & Heq & H20); [lia|].
      exists (PyStr.slice_to 20 value +:+ "..."). split; [done|]. split.
      * intros _. by exists (PyStr.slice_to 20 value), rest.
      * intros [?|[Ha Hk]]; [lia|].
        apply orb_true_iff in Hname as [Hc|Hc];
          apply contains_spec in Hc;
          first [by destruct Ha | by destruct Hk].
    + apply Z.ltb_ge in Hlen. exists value. split; [done|]. split.
      * intros [_ ?]. lia.
      * done.
  - exists value. split; [done|]. split; [|done].
    apply orb_false_iff in Hname as [Ha Hk].
    intros [[Hm|Hm] _]; apply contains_spec in Hm; congruence.
Qed.

(** C6. With debug enabled, the transport prints the request line and
    then one line per header, in order, before it hands the request on.
    For a header whose name contains [auth] or [key], compared in lower
    case, and whose value has more than 20 characters, the line shows
    the first 20 characters of the value followed by [...]. For a header
    whose value has at most 20 characters, and for a header whose name
    contains neither word, the line shows the value as it is. *)
Theorem sensitive_headers_are_truncated self (request : Httpx.Request) st :
  DebugTransport.debug self = true ->
  exists lines,
    DebugTransport.handle_request self request st =
    Httpx.handle_request (DebugTransport.transport self) request
      (after_print
         (("DEBUG: " +:+ Httpx.method request +:+ " " +:+ Httpx.url request)
          :: lines) st) /\
    length lines = length (Httpx.headers request) /\
    forall (i : nat) (key value : string),
      Httpx.headers request !! i = Some (key, value) ->
      exists shown,
        lines !! i = Some ("  " +:+ key +:+ ": " +:+ shown) /\
        ((mentions "auth" key \/ mentions "key" key) /\
         (20 < String.length value)%nat ->
         exists first20 rest,
           value = first20 +:+ rest /\ String.length first20 = 20%nat /\
           shown = first20 +:+ "...") /\
        ((String.length value <= 20)%nat \/
         (~ mentions "auth" key /\ ~ mentions "key" key) ->
         shown = value).
Proof.
  intros Hdebug.
  exists ((fun kv => header_line kv.1 kv.2) <$> Httpx.headers request).
  split; [by rewrite handle_request_run, Hdebug|].
  split; [by rewrite length_fmap|].
  intros i key value Hi.
  destruct (header_line_cases key value) as (shown & Hline & Hcases).
  exists shown. split; [|done].
  by rewrite list_lookup_fmap, Hi, <- Hline.
Qed.

(** C8. Whatever the debug flag, the transport calls the wrapped
    transport with the request it was given and returns what that call
    returns, value or exception, with the state that call leaves. The
    wrapped transport is entered with the world, the calls and the
    environment as they were; only printed lines were added, and none
    when debug is off. *)
Theorem debug_transport_only_observes self (request : Httpx.Request) st :
  exists st1,
    DebugTransport.handle_request self request st =
    Httpx.handle_request (DebugTransport.transport self) request st1 /\
    world st1 = world st /\ calls st1 = calls st /\
    environ st1 = environ st /\ home_dotenv st1 = home_dotenv st /\
    (exists lines, stdout st1 = (stdout st ++ lines)%list) /\
    (DebugTransport.debug self = false -> st1 = st).
Proof.
  rewrite handle_request_run.
  destruct (DebugTransport.debug self).
  - eexists. split; [done|]. cbn. repeat split; [by eexists|done].
  - exists st. repeat split. exists []. by rewrite app_nil_r.
Qed.

End DebugClaims.

(** ** The filter builders *)

Section FilterClaims.

Import FathomFilters.

(** On a shared key the later operand of a merge wins. *)
Lemma dict_merge_singletons {V} (k : string) (a b : V) :
  dict_merge (V:=V) {[ k := a ]} {[ k := b ]} = {[ k := b ]}.
Proof.
  unfold dict_merge. apply map_eq. intros i.
  rewrite lookup_union. destruct (decide (i = k)) as [->|Hne].
  - by rewrite !lookup_singleton_eq.
  - by rewrite !lookup_singleton_ne.
Qed.

(** C9. [internal_meetings()] and [external_meetings()] each return a
    dictionary whose only key is [calendar_invitees_domains_type]. Merged
    in either order, the result is the later operand: that one key, once,
    with the later operand's value. *)
Theorem domain_filters_later_operand_wins :
  dom internal_meetings
    = ({[ "calendar_invitees_domains_type" ]} : gset string) /\
  dom external_meetings
    = ({[ "calendar_invitees_domains_type" ]} : gset string) /\
  dict_merge internal_meetings external_meetings = external_meetings /\
  dict_merge external_meetings internal_meetings = internal_meetings /\
  dict_merge internal_meetings external_meetings
    !! "calendar_invitees_domains_type"
    = Some (VDomainsType ONE_OR_MORE_EXTERNAL) /\
  dict_merge external_meetings internal_meetings
    !! "calendar_invitees_domains_type"
    = Some (VDomainsType ONLY_INTERNAL) /\
  size (dict_merge internal_meetings external_meetings) = 1%nat /\
  size (dict_merge external_meetings internal_meetings) = 1%nat.
Proof.
  unfold internal_meetings, external_meetings.
  rewrite !dict_merge_singletons, !dom_singleton_L, !lookup_singleton_eq,
    !map_size_singleton.
  done.
Qed.

End FilterClaims.

(** ** Runs on concrete worlds *)

Section Runs.

Import FathomConnection Scenario.

(** The debug log of the request of the specification's example. *)
Example debug_log_of_api_request :
  stdout (DebugTransport.handle_request debugging api_request at_all_down).2 =
  ["DEBUG: GET https://api.fathom.ai/external/v1/teams";
   "  x-api-key: abcdefghijklmnopqrst...";
   "  accept: application/json"].
Proof. reflexivity. Qed.

(** Both paths down: two calls are made, and the envelope of the second
    is returned. *)
Example both_paths_down :
  list_teams with_sdk false at_all_down =
  (inr (failed "connection timed out" "rest"),
   after_call (RequestsGet "https://api.fathom.ai/external/v1/teams"
                           (rest_headers with_sdk) None) all_down
     (after_call (SdkListTeams tt) all_down at_all_down)).
Proof. reflexivity. Qed.



(** The same interruption in the primitives that do not look at the
    class: there it would come back as an envelope, which is why the
    class has to be looked at. *)
Example interruption_without_the_class :
  (list_teams_sdk with_sdk at_interrupted).1
  = inr {| success := false; data := None; error := Some "";
           method := "sdk"; status_code := None |}.
Proof. reflexivity. Qed.

(** C7, at an input where it fails. At a quarter of a second past
    10:00:00 UTC on 2026-06-15, on a machine whose local time is two
    hours ahead of UTC, [last_n_days(7)] returns the local wall-clock
    reading of seven days before, 12:00:00.25 on 2026-06-08, with [Z]
    after it. Read as a timestamp, that is two hours later than the
    current time minus seven days, not within one second of it. *)
Theorem last_n_days_labels_local_time_as_utc :
  utcoffset (world in_berlin) = 7200 /\
  time_us (world in_berlin) = morning /\
  exists t,
    FathomFilters.last_n_days 7 in_berlin =
      (inr {[ "created_after" := VStr "2026-06-08T12:00:00.250000Z" ]},
       in_berlin) /\
    timestamp_of_iso "2026-06-08T12:00:00.250000Z" = Some t /\
    t - (morning - seven_days) = 7200 * 1000000 /\
    within_one_second t (morning - seven_days) = false.
Proof.
  split; [reflexivity|]. split; [reflexivity|].
  exists (morning - seven_days + 7200 * 1000000).
  split; [by vm_compute|]. split; [by vm_compute|].
  split; [lia|]. by vm_compute.
Qed.

(** The same call at the same instant on a machine that keeps UTC: the
    value is the current time minus seven days. *)
Example last_n_days_on_a_utc_machine :
  FathomFilters.last_n_days 7 in_reykjavik =
    (inr {[ "created_after" := VStr "2026-06-08T10:00:00.250000Z" ]},
     in_reykjavik) /\
  timestamp_of_iso "2026-06-08T10:00:00.250000Z" = Some (morning - seven_days).
Proof. split; by vm_compute. Qed.

(** A whole second is written without a fraction, and a span of days
    that leaves the calendar raises [OverflowError]. *)
Example last_n_days_at_the_edges :
  Datetime.isoformat
    {| Datetime.year := 987; Datetime.month := 3; Datetime.day := 1;
       Datetime.hour := 0; Datetime.minute := 5; Datetime.second := 9;
       Datetime.microsecond := 0 |} = "0987-03-01T00:05:09" /\
  Datetime.sub_days
    {| Datetime.year := 2024; Datetime.month := 3; Datetime.day := 1;
       Datetime.hour := 8; Datetime.minute := 0; Datetime.second := 0;
       Datetime.microsecond := 0 |} 1
  = inr {| Datetime.year := 2024; Datetime.month := 2; Datetime.day := 29;
           Datetime.hour := 8; Datetime.minute := 0; Datetime.second := 0;
           Datetime.microsecond := 0 |} /\
  (FathomFilters.last_n_days 800000 in_berlin).1
  = inl (OverflowError "date value out of range") /\
  (FathomFilters.last_n_days (-1) in_berlin).1
  = inr {[ "created_after" := VStr "2026-06-16T12:00:00.250000Z" ]}.
Proof. repeat split; by vm_compute. Qed.

(** Against C4 as stated: without an SDK client and with [prefer_rest]
    set, a failed REST call is followed by the SDK path, and the caller
    gets the SDK path's fixed envelope, not the REST envelope. *)
Lemma composed_result_is_not_always_the_rest_result :
  sdk_client no_sdk = None /\
  (list_teams no_sdk true at_server_error).1 =
    inr (failed "SDK client not initialized" "sdk") /\
  (list_teams_rest no_sdk at_server_error).1 =
    inr {| success := false; data := None;
           error := Some "Internal Server Error"; method := "rest";
           status_code := Some 500 |} /\
  (list_teams no_sdk true at_server_error).1
    <> (list_teams_rest no_sdk at_server_error).1.
Proof. repeat split. discriminate. Qed.

Lemma without_sdk_client_witness :
  sdk_client no_sdk = None /\
  list_teams_sdk no_sdk at_server_error =
    (inr (failed "SDK client not initialized" "sdk"), at_server_error) /\
  list_teams no_sdk false at_server_error =
    list_teams_rest no_sdk at_server_error /\
  calls (list_teams no_sdk true at_server_error).2 =
    [RequestsGet "https://api.fathom.ai/external/v1/teams"
                 (rest_headers no_sdk) None].
Proof.
  destruct (without_sdk_client no_sdk ∅ at_server_error eq_refl)
    as (Hsdk & _ & Hfalse & _ & _ & _ & Hcalls).
  split; [reflexivity|]. split; [exact Hsdk|]. split; [exact Hfalse|].
  exact (proj1 (Hcalls true)).
Defined.

(** Against C5 as stated: no [api_key] argument and no home file, but
    [FATHOM_API_KEY] is already in the environment of the process; the
    constructor returns a connection that holds that key. *)
Lemma environment_variable_supplies_the_key :
  home_dotenv key_in_shell = [] /\
  exists conn st',
    __init__ (Payload:=string) None false key_in_shell = (inr conn, st') /\
    api_key conn = "from-the-shell".
Proof. split; [reflexivity|]. by eexists _, _. Qed.

Lemma missing_api_key_fails_construction_witness :
  environ at_all_down !! "FATHOM_API_KEY" = None /\
  (forall v, ("FATHOM_API_KEY", v) ∉ home_dotenv at_all_down) /\
  exists st',
    __init__ (Payload:=string) None true at_all_down =
    (inl (ValueError
       "FATHOM_API_KEY not found in ~/.env or provided as parameter"), st') /\
    calls st' = calls at_all_down /\ world st' = world at_all_down.
Proof.
  assert (Hfile : forall v : option string,
            ("FATHOM_API_KEY", v) ∉ home_dotenv at_all_down).
  { intros v Hin. cbn in Hin. by apply not_elem_of_nil in Hin. }
  split; [reflexivity|]. split; [exact Hfile|].
  exact (missing_api_key_fails_construction (Payload:=string) true at_all_down
           eq_refl Hfile).
Defined.

Lemma sensitive_headers_are_truncated_witness :
  DebugTransport.debug debugging = true /\
  exists lines,
    DebugTransport.handle_request debugging api_request at_all_down =
    Httpx.handle_request tt api_request
      (after_print ("DEBUG: GET https://api.fathom.ai/external/v1/teams"
                    :: lines) at_all_down) /\
    length lines = 2%nat.
Proof.
  split; [reflexivity|].
  destruct (sensitive_headers_are_truncated debugging api_request at_all_down
              eq_refl) as (lines & Hrun & Hlen & _).
  exists lines. split; [exact Hrun|exact Hlen].
Defined.

Lemma debug_transport_only_observes_witness :
  DebugTransport.debug quiet = false /\
  DebugTransport.handle_request quiet api_request at_all_down =
  Httpx.handle_request tt api_request at_all_down.
Proof.
  split; [reflexivity|].
  destruct (debug_transport_only_observes quiet api_request at_all_down)
    as (st1 & Hrun & _ & _ & _ & _ & _ & Hquiet).
  rewrite Hrun. f_equal. exact (Hquiet eq_refl).
Defined.

(** Against C10 as stated: the status code is 200, the body is not JSON,
    and the envelope has [success = False] and no status code. *)
Lemma status_200_without_json_is_a_failure :
  requests_get "https://api.fathom.ai/external/v1/teams"
               (rest_headers with_sdk) None (world at_ok_not_json)
  = (inr {| resp_status_code := 200; resp_text := "<html>OK</html>";
            resp_json := inl json_error |}, ok_not_json) /\
  (list_teams_rest with_sdk at_ok_not_json).1 =
    inr {| success := false; data := None;
           error := Some "Expecting value: line 1 column 1 (char 0)";
           method := "rest"; status_code := None |}.
Proof. split; reflexivity. Qed.

Lemma rest_success_needs_200_and_json_witness :
  exists r,
    list_teams_rest with_sdk at_server_error =
    (inr r, after_call (RequestsGet "https://api.fathom.ai/external/v1/teams"
                                    (rest_headers with_sdk) None)
                       server_error at_server_error) /\
    r = {| success := false; data := None;
           error := Some "Internal Server Error"; method := "rest";
           status_code := Some 500 |}.
Proof.
  destruct (rest_success_needs_200_and_json with_sdk ∅ at_server_error)
    as [Hteams _].
  destruct (Hteams _ _ eq_refl) as (r & Hrun & _ & Hother & _).
  exists r. split; [exact Hrun|]. apply Hother. discriminate.
Defined.

End Runs.

(** ** More on the construction of the connection *)

Section ConstructionFacts.
Context {W Sdk Payload : Type} `{!Service W Sdk Payload}.
Implicit Types (st : State W Sdk) (p : option string).

Import FathomConnection.

Lemma nonempty_Some (k : string) : k <> "" -> nonempty (Some k) = Some k.
Proof. by destruct k. Qed.

Lemma nonempty_inv p (k : string) : nonempty p = Some k -> p = Some k /\ k <> "".
Proof. destruct p as [[|c s]|]; cbn; intros [= <-]; done. Qed.

(** What the constructor does once it holds the key [k]. *)
Lemma init_sdk_client_run (debug : bool) (k : string) st :
  _init_sdk_client debug k st =
  match sdk_new k debug with
  | inr client => (inr (Some client), st)
  | inl e =>
      (inr None,
       if debug
       then after_print ["Failed to initialize SDK client: " +:+ exn_str e] st
       else st)
  end.
Proof.
  unfold _init_sdk_client, try_except, bind, lift, ret, print, after_print.
  destruct (sdk_new k debug) as [e|client]; [|done].
  by destruct debug.
Qed.

(** The constructor, step by step: the key is the argument when that is
    a non-empty string, and otherwise what the environment holds once the
    home file was loaded. *)
Lemma init_run p (debug : bool) st :
  __init__ p debug st =
  let finish (k : string) (st0 : State W Sdk) :=
    let r := _init_sdk_client debug k st0 in
    match r.1 with
    | inr client =>
        (inr {| FathomConnection.debug := debug; api_key := k;
                base_url := "https://api.fathom.ai/external/v1";
                sdk_client := client;
                rest_headers := <[ "x-api-key" := k ]>
                                {[ "Accept" := "application/json" ]} |}, r.2)
    | inl e => (inl e, r.2)
    end in
  match nonempty p with
  | Some k => finish k st
  | None =>
      let st1 := (load_dotenv st).2 in
      match nonempty (environ st1 !! "FATHOM_API_KEY") with
      | Some k => finish k st1
      | None => (inl (ValueError
          "FATHOM_API_KEY not found in ~/.env or provided as parameter"), st1)
      end
  end.
Proof.
  unfold __init__, _load_api_key. cbn zeta.
  destruct (nonempty p) as [k|].
  - unfold bind at 1. unfold bind at 1. unfold ret at 1.
    destruct (_init_sdk_client debug k st) as [[e|client] st']; done.
  - unfold bind at 1. unfold bind at 1. unfold bind at 1.
    unfold load_dotenv at 1. unfold getenv at 1. cbn.
    destruct (nonempty _) as [k|]; [|done].
    unfold bind at 1. unfold ret at 1.
    destruct (_init_sdk_client debug k _) as [[e|client] st']; done.
Qed.

(** X1. A non-empty [api_key] argument is the key of the connection. The
    home file is not loaded and the environment is left as it was, also
    when either of them holds another key. *)
Theorem explicit_key_is_used (k : string) (debug : bool) st :
  k <> "" ->
  exists conn st',
    __init__ (Some k) debug st = (inr conn, st') /\
    api_key conn = k /\ environ st' = environ st.
Proof.
  intros Hk. rewrite init_run, (nonempty_Some k Hk). cbv beta iota zeta.
  rewrite init_sdk_client_run.
  destruct (sdk_new k debug); [destruct debug|]; by eexists _, _.
Qed.

(** X2. With no usable argument ([None] or the empty string), a
    non-empty [FATHOM_API_KEY] already in the process environment is the
    key, whatever the home file binds that name to. *)
Theorem environment_beats_home_file p (k : string) (debug : bool) st :
  p = None \/ p = Some "" ->
  environ st !! "FATHOM_API_KEY" = Some k ->
  k <> "" ->
  exists conn st',
    __init__ p debug st = (inr conn, st') /\ api_key conn = k.
Proof.
  intros Hp Henv Hk. rewrite init_run.
  assert (nonempty p = None) as -> by (by destruct Hp as [->| ->]).
  cbv beta iota zeta. unfold load_dotenv. cbn [snd environ].
  rewrite (lookup_union_l' _ _ _ ltac:(by rewrite Henv)), Henv.
  rewrite (nonempty_Some k Hk). cbv beta iota zeta.
  rewrite init_sdk_client_run.
  destruct (sdk_new k debug); [destruct debug|]; by eexists _, _.
Qed.

(** The last binding of a name in a dotenv file is the one that counts. *)
Lemma dotenv_dict_last (pre post : list (string * option string))
    (name : string) (v : option string) :
  (forall v', (name, v') ∉ post) ->
  dotenv_dict (pre ++ (name, v) :: post)%list !! name = Some v.
Proof.
  intros Hpost. unfold dotenv_dict.
  rewrite reverse_app, reverse_cons, <- app_assoc, list_to_map_app.
  rewrite lookup_union_r.
  - cbn. by rewrite lookup_insert_eq.
  - apply not_elem_of_list_to_map. intros Hin.
    apply list_elem_of_fmap in Hin as ([k' v'] & Hk' & Hin).
    cbn in Hk'. subst k'. rewrite elem_of_reverse in Hin.
    exact (Hpost v' Hin).
Qed.

(** X3. With no usable argument and no [FATHOM_API_KEY] in the process
    environment, the key is the non-empty value of the last
    [FATHOM_API_KEY] line of the home file; loading the file has put
    that binding into the environment of the process. *)
Theorem home_file_supplies_the_key p (k : string) (debug : bool) st
    (pre post : list (string * option string)) :
  p = None \/ p = Some "" ->
  environ st !! "FATHOM_API_KEY" = None ->
  home_dotenv st = (pre ++ ("FATHOM_API_KEY", Some k) :: post)%list ->
  (forall v, ("FATHOM_API_KEY", v) ∉ post) ->
  k <> "" ->
  exists conn st',
    __init__ p debug st = (inr conn, st') /\ api_key conn = k /\
    environ st' !! "FATHOM_API_KEY" = Some k.
Proof.
  intros Hp Henv Hfile Hpost Hk. rewrite init_run.
  assert (nonempty p = None) as -> by (by destruct Hp as [->| ->]).
  cbv beta iota zeta.
  assert (Hload : environ (load_dotenv st).2 !! "FATHOM_API_KEY" = Some k).
  { unfold load_dotenv. cbn. rewrite lookup_union_r by done.
    by rewrite lookup_omap, Hfile, (dotenv_dict_last _ _ _ _ Hpost). }
  rewrite Hload, (nonempty_Some k Hk). cbv beta iota zeta.
  rewrite init_sdk_client_run.
  destruct (sdk_new k debug); [destruct debug|]; by eexists _, _.
Qed.

(** X4. An empty [FATHOM_API_KEY] in the process environment hides the
    home file: loading does not override it, the empty string counts as
    no key, and the constructor raises, whatever the file binds. *)
Theorem empty_environment_variable_hides_the_file p (debug : bool) st :
  p = None \/ p = Some "" ->
  environ st !! "FATHOM_API_KEY" = Some "" ->
  exists st',
    __init__ p debug st =
    (inl (ValueError
       "FATHOM_API_KEY not found in ~/.env or provided as parameter"), st').
Proof.
  intros Hp Henv. rewrite init_run.
  assert (nonempty p = None) as -> by (by destruct Hp as [->| ->]).
  cbv beta iota zeta. unfold load_dotenv. cbn [snd environ].
  rewrite (lookup_union_l' _ _ _ ltac:(by rewrite Henv)), Henv.
  cbn. by eexists.
Qed.


(** X7. Every connection the constructor returns has a non-empty key,
    the fixed base URL, exactly the two REST headers with [x-api-key]
    set to that key, the debug flag it was given, and the SDK client
    that the SDK constructor returned for that key, if it returned
    one. *)
Theorem constructed_connection_is_well_formed p (debug : bool) st conn st' :
  __init__ p debug st = (inr conn, st') ->
  api_key conn <> "" /\
  base_url conn = "https://api.fathom.ai/external/v1" /\
  rest_headers conn =
    <[ "x-api-key" := api_key conn ]> {[ "Accept" := "application/json" ]} /\
  rest_headers conn !! "x-api-key" = Some (api_key conn) /\
  dom (rest_headers conn) = ({[ "x-api-key"; "Accept" ]} : gset string) /\
  FathomConnection.debug conn = debug /\
  sdk_client conn = match sdk_new (api_key conn) debug with
                    | inr client => Some client
                    | inl _ => None
                    end.
Proof.
  rewrite init_run. cbv beta iota zeta.
  assert (Hfinish : forall (k : string) st0, k <> "" ->
    match (_init_sdk_client debug k st0).1 with
    | inr client =>
        (inr {| FathomConnection.debug := debug; api_key := k;
                base_url := "https://api.fathom.ai/external/v1";
                sdk_client := client;
                rest_headers := <[ "x-api-key" := k ]>
                                {[ "Accept" := "application/json" ]} |},
         (_init_sdk_client debug k st0).2)
    | inl e => (inl e, (_init_sdk_client debug k st0).2)
    end = (inr conn, st') ->
    api_key conn <> "" /\
    base_url conn = "https://api.fathom.ai/external/v1" /\
    rest_headers conn =
      <[ "x-api-key" := api_key conn ]> {[ "Accept" := "application/json" ]} /\
    rest_headers conn !! "x-api-key" = Some (api_key conn) /\
    dom (rest_headers conn) = ({[ "x-api-key"; "Accept" ]} : gset string) /\
    FathomConnection.debug conn = debug /\
    sdk_client conn = match sdk_new (api_key conn) debug with
                      | inr client => Some client
                      | inl _ => None
                      end).
  { intros k st0 Hk. rewrite init_sdk_client_run.
    destruct (sdk_new k debug) as [e|client] eqn:Hnew; cbn;
      intros [= <- _]; cbn; rewrite Hnew, lookup_insert_eq, dom_insert_L,
        dom_singleton_L; done. }
  destruct (nonempty p) as [k|] eqn:Hp.
  - apply Hfinish. by apply nonempty_inv in Hp as [_ ?].
  - destruct (nonempty (environ _ !! _)) as [k|] eqn:Henv; [|done].
    apply Hfinish. by apply nonempty_inv in Henv as [_ ?].
Qed.

End ConstructionFacts.

(** ** More on the client operations *)

Section ClientFacts.
Context {W Sdk Payload : Type} `{!Service W Sdk Payload}.
Implicit Types (self : FathomConnection.t Sdk) (st : State W Sdk).

Import FathomConnection.

Lemma bind_run {A B} (m : M (W:=W) (Sdk:=Sdk) A) (k : A -> M B) st a st' :
  m st = (inr a, st') -> bind m k st = k a st'.
Proof. unfold bind. by intros ->. Qed.

(** The slice [s[:n]] is a prefix of [s] of length [min n (len s)]. *)
Lemma slice_to_prefix (n : nat) (s : string) :
  exists rest, s = PyStr.slice_to n s +:+ rest /\
               String.length (PyStr.slice_to n s) = Nat.min n (String.length s).
Proof.
  revert s. induction n as [|n IH]; intros s.
  - by exists s.
  - destruct s as [|c s]; [by exists EmptyString|].
    destruct (IH s) as (rest & Heq & Hn). exists rest. split.
    + change (String c s = String c (PyStr.slice_to n s +:+ rest)).
      by f_equal.
    + change (S (String.length (PyStr.slice_to n s))
              = S (Nat.min n (String.length s))). by f_equal.
Qed.

(** X8. [get_api_key_info] has exactly the entries [length], [prefix]
    and [sdk_client_available]. The prefix shows the first ten
    characters of the key, or the whole key when it has ten or fewer,
    followed by [...]; the length is the length of the key; the flag
    tells whether there is an SDK client. *)
Theorem api_key_info_shows_at_most_ten_characters self :
  exists shown rest,
    api_key self = shown +:+ rest /\
    String.length shown = Nat.min 10 (String.length (api_key self)) /\
    get_api_key_info self !! "prefix" = Some (VStr (shown +:+ "...")) /\
    get_api_key_info self !! "length"
      = Some (VInt (Z.of_nat (String.length (api_key self)))) /\
    get_api_key_info self !! "sdk_client_available"
      = Some (VBool (bool_decide (is_Some (sdk_client self)))) /\
    dom (get_api_key_info self)
      = ({[ "length"; "prefix"; "sdk_client_available" ]} : gset string).
Proof.
  destruct (slice_to_prefix 10 (api_key self)) as (rest & Heq & Hlen).
  exists (PyStr.slice_to 10 (api_key self)), rest.
  split; [done|]. split; [done|].
  unfold get_api_key_info.
  split; [by simplify_map_eq|]. split; [by simplify_map_eq|].
  split.
  - simplify_map_eq. destruct (sdk_client self).
    + by rewrite bool_decide_eq_true_2 by eauto.
    + rewrite bool_decide_eq_false_2; [done|]. by intros [? ?].
  - by rewrite !dom_insert_L, dom_singleton_L.
Qed.

(** The shape of what a primitive returns, and what its own code leaves
    alone. *)
Lemma primitive_result_shape self (kwargs : Kwargs) st
    (op : M (W:=W) (Sdk:=Sdk) (FathomResponse Payload)) :
  op = list_teams_sdk self \/ op = list_meetings_sdk self kwargs \/
  op = list_teams_rest self \/ op = list_meetings_rest self kwargs ->
  exists r st', op st = (inr r, st') /\
    ((exists x, r = sdk_outcome x) \/ (exists x, r = rest_outcome x) \/
     r = failed "SDK client not initialized" "sdk") /\
    stdout st' = stdout st /\ environ st' = environ st /\
    home_dotenv st' = home_dotenv st.
Proof.
  intros [->|[->|[->| ->]]].
  - rewrite list_teams_sdk_run. destruct (sdk_client self);
      eexists _, _; (split; [done|]); split; eauto.
  - rewrite list_meetings_sdk_run. destruct (sdk_client self);
      eexists _, _; (split; [done|]); split; eauto.
  - rewrite list_teams_rest_run.
    eexists _, _; (split; [done|]); split; eauto.
  - rewrite list_meetings_rest_run.
    eexists _, _; (split; [done|]); split; eauto.
Qed.

(** Every client operation is a primitive or the fallback composition of
    two primitives. *)
Lemma client_operation_cases self (prefer_rest : bool) (kwargs : Kwargs)
    (op : M (W:=W) (Sdk:=Sdk) (FathomResponse Payload)) :
  op = list_teams_sdk self \/ op = list_meetings_sdk self kwargs \/
  op = list_teams_rest self \/ op = list_meetings_rest self kwargs \/
  op = list_teams self prefer_rest \/
  op = list_meetings self prefer_rest kwargs ->
  let primitive (q : M (W:=W) (Sdk:=Sdk) (FathomResponse Payload)) :=
    q = list_teams_sdk self \/ q = list_meetings_sdk self kwargs \/
    q = list_teams_rest self \/ q = list_meetings_rest self kwargs in
  primitive op \/
  exists preferred other,
    primitive preferred /\ primitive other /\
    op = (result <- preferred ;;
          if success result then ret result else other).
Proof.
  cbn zeta. intros [->|[->|[->|[->|[->| ->]]]]]; try tauto;
    right; destruct prefer_rest; eexists _, _;
    (split; [|split; [|reflexivity]]); tauto.
Qed.

(** A property that the three shapes of a primitive's envelope have holds
    for every envelope a client operation returns; and the code of a
    client operation has no [print] and no access to the environment. *)
Lemma client_result_ind (P : FathomResponse Payload -> Prop)
    self (prefer_rest : bool) (kwargs : Kwargs) st
    (op : M (W:=W) (Sdk:=Sdk) (FathomResponse Payload)) :
  (forall x, P (sdk_outcome x)) ->
  (forall x, P (rest_outcome x)) ->
  P (failed "SDK client not initialized" "sdk") ->
  op = list_teams_sdk self \/ op = list_meetings_sdk self kwargs \/
  op = list_teams_rest self \/ op = list_meetings_rest self kwargs \/
  op = list_teams self prefer_rest \/
  op = list_meetings self prefer_rest kwargs ->
  exists r st', op st = (inr r, st') /\ P r /\
    stdout st' = stdout st /\ environ st' = environ st /\
    home_dotenv st' = home_dotenv st.
Proof.
  intros Hsdk Hrest Hnone Hop.
  assert (Hprim : forall q st0,
    (q = list_teams_sdk self \/ q = list_meetings_sdk self kwargs \/
     q = list_teams_rest self \/ q = list_meetings_rest self kwargs) ->
    exists r st', q st0 = (inr r, st') /\ P r /\
      stdout st' = stdout st0 /\ environ st' = environ st0 /\
      home_dotenv st' = home_dotenv st0).
  { intros q st0 Hq.
    destruct (primitive_result_shape self kwargs st0 q Hq)
      as (r & st' & Hrun & Hshape & Hframe).
    exists r, st'. split; [done|]. split; [|done].
    destruct Hshape as [[x ->]|[[x ->]| ->]]; auto. }
  destruct (client_operation_cases self prefer_rest kwargs op Hop)
    as [Hq|(preferred & other & Hp & Ho & ->)]; [by apply Hprim|].
  destruct (Hprim preferred st Hp) as (r1 & st1 & E1 & P1 & F1 & F2 & F3).
  rewrite (fallback_run _ _ _ _ _ E1).
  destruct (success r1).
  - by exists r1, st1.
  - destruct (Hprim other st1 Ho) as (r2 & st2 & E2 & P2 & G1 & G2 & G3).
    exists r2, st2. rewrite E2. repeat split; congruence.
Qed.

(** X9. Every envelope a client operation returns says which path made
    it ([method] is [sdk] or [rest], never the default), carries an
    error text when it failed, and has a status code only on the REST
    path. *)
Theorem envelope_is_tagged_and_explained self (prefer_rest : bool)
    (kwargs : Kwargs) st
    (op : M (W:=W) (Sdk:=Sdk) (FathomResponse Payload)) :
  op = list_teams_sdk self \/ op = list_meetings_sdk self kwargs \/
  op = list_teams_rest self \/ op = list_meetings_rest self kwargs \/
  op = list_teams self prefer_rest \/
  op = list_meetings self prefer_rest kwargs ->
  exists r st', op st = (inr r, st') /\
    (method r = "sdk" \/ method r = "rest") /\
    (success r = false -> exists msg, error r = Some msg) /\
    (forall code, status_code r = Some code -> method r = "rest").
Proof.
  intros Hop.
  destruct (client_result_ind
    (fun r => (method r = "sdk" \/ method r = "rest") /\
              (success r = false -> exists msg, error r = Some msg) /\
              (forall code, status_code r = Some code -> method r = "rest"))
    self prefer_rest kwargs st op) as (r & st' & Hrun & HP & _); try done.
  - intros [e|d]; cbn; repeat split; eauto; done.
  - intros [e|response]; cbn.
    + repeat split; eauto; done.
    + destruct (_ =? _); [destruct (resp_json response)|]; cbn;
        repeat split; eauto; done.
  - cbn. repeat split; eauto; done.
  - by exists r, st'.
Qed.

End ClientFacts.

(** ** The composed operations, the self-test and the REST requests *)

Section CompositionFacts.
Context {W Sdk Payload : Type} `{!Service W Sdk Payload}.
Implicit Types (self : FathomConnection.t Sdk) (st : State W Sdk).

Import FathomConnection.

(** X11. A composed operation succeeds exactly when one of the two
    paths, run in its order, succeeds. When both fail, the envelope and
    the state are those of the second path: the error of the preferred
    path is not in the result. *)
Theorem composed_fails_only_when_both_paths_fail self (prefer_rest : bool)
    (kwargs : Kwargs) st :
  let both composed preferred other :=
    exists r1 st1 r2 st2 r st',
      preferred st = (inr r1, st1) /\ other st1 = (inr r2, st2) /\
      composed st = (inr r, st') /\
      success r = success r1 || success r2 /\
      (success r = false -> r = r2 /\ st' = st2) in
  both (list_teams self prefer_rest)
       (if prefer_rest then list_teams_rest self else list_teams_sdk self)
       (if prefer_rest then list_teams_sdk self else list_teams_rest self)
  /\
  both (list_meetings self prefer_rest kwargs)
       (if prefer_rest then list_meetings_rest self kwargs
        else list_meetings_sdk self kwargs)
       (if prefer_rest then list_meetings_sdk self kwargs
        else list_meetings_rest self kwargs).
Proof.
  assert (Hgen : forall preferred other,
    (preferred = list_teams_sdk self \/ preferred = list_meetings_sdk self kwargs \/
     preferred = list_teams_rest self \/ preferred = list_meetings_rest self kwargs) ->
    (other = list_teams_sdk self \/ other = list_meetings_sdk self kwargs \/
     other = list_teams_rest self \/ other = list_meetings_rest self kwargs) ->
    exists r1 st1 r2 st2 r st',
      preferred st = (inr r1, st1) /\ other st1 = (inr r2, st2) /\
      (result <- preferred ;; if success result then ret result else other) st
        = (inr r, st') /\
      success r = success r1 || success r2 /\
      (success r = false -> r = r2 /\ st' = st2)).
  { intros preferred other Hp Ho.
    destruct (primitive_returns self kwargs st preferred Hp)
      as (r1 & st1 & E1 & _).
    destruct (primitive_returns self kwargs st1 other Ho)
      as (r2 & st2 & E2 & _).
    exists r1, st1, r2, st2.
    rewrite (fallback_run _ _ _ _ _ E1).
    destruct (success r1) eqn:S1.
    - exists r1, st1. rewrite S1. by repeat split.
    - exists r2, st2. by repeat split. }
  split; destruct prefer_rest; cbv zeta; apply Hgen; tauto.
Qed.


(** What a returned connection looks like, and the state it comes with. *)
Lemma init_success_inv (p : option string) (debug : bool) st conn st' :
  __init__ p debug st = (inr conn, st') ->
  base_url conn = "https://api.fathom.ai/external/v1" /\
  rest_headers conn =
    <[ "x-api-key" := api_key conn ]> {[ "Accept" := "application/json" ]} /\
  calls st' = calls st.
Proof.
  rewrite init_run. cbv beta iota zeta.
  assert (Hfinish : forall (k : string) st0, calls st0 = calls st ->
    match (_init_sdk_client debug k st0).1 with
    | inr client =>
        (inr {| FathomConnection.debug := debug; api_key := k;
                base_url := "https://api.fathom.ai/external/v1";
                sdk_client := client;
                rest_headers := <[ "x-api-key" := k ]>
                                {[ "Accept" := "application/json" ]} |},
         (_init_sdk_client debug k st0).2)
    | inl e => (inl e, (_init_sdk_client debug k st0).2)
    end = (inr conn, st') ->
    base_url conn = "https://api.fathom.ai/external/v1" /\
    rest_headers conn =
      <[ "x-api-key" := api_key conn ]> {[ "Accept" := "application/json" ]} /\
    calls st' = calls st).
  { intros k st0 Hcalls. rewrite init_sdk_client_run.
    destruct (sdk_new k debug) as [e|client]; cbn;
      intros [= <- <-]; cbn; [destruct debug|]; done. }
  destruct (nonempty p) as [k|]; [by apply Hfinish|].
  destruct (nonempty (environ _ !! _)) as [k|]; [|done].
  by apply Hfinish.
Qed.

(** X13. The REST requests of a constructed connection: [list_teams_rest]
    makes one GET of [https://api.fathom.ai/external/v1/teams] without
    query parameters, [list_meetings_rest] one GET of
    [https://api.fathom.ai/external/v1/meetings] with the caller's
    parameters as they are; both carry the key in [x-api-key] and
    [Accept: application/json], and nothing else. *)
Theorem rest_requests_of_a_constructed_connection (p : option string)
    (debug : bool) (params : Kwargs) st conn st' :
  __init__ p debug st = (inr conn, st') ->
  calls (list_teams_rest conn st').2 =
    (calls st ++
     [RequestsGet "https://api.fathom.ai/external/v1/teams"
        (<[ "x-api-key" := api_key conn ]> {[ "Accept" := "application/json" ]})
        None])%list /\
  calls (list_meetings_rest conn params st').2 =
    (calls st ++
     [RequestsGet "https://api.fathom.ai/external/v1/meetings"
        (<[ "x-api-key" := api_key conn ]> {[ "Accept" := "application/json" ]})
        (Some params)])%list.
Proof.
  intros Hinit.
  destruct (init_success_inv _ _ _ _ _ Hinit) as (Hurl & Hheaders & Hcalls).
  rewrite list_teams_rest_run, list_meetings_rest_run. cbn.
  by rewrite Hurl, Hheaders, Hcalls.
Qed.

End CompositionFacts.

(** ** What the debug log keeps back *)

Section RedactionFacts.
Context {W Sdk HttpxResponse T : Type}.
Context `{!Httpx.BaseTransport W Sdk HttpxResponse T}.
Implicit Types (self : DebugTransport.t T) (st : State W Sdk).

Lemma app_String (c : ascii) (a b : string) :
  String c a +:+ b = String c (a +:+ b).
Proof. reflexivity. Qed.

Lemma slice_to_app (first rest : string) :
  PyStr.slice_to (String.length first) (first +:+ rest) = first.
Proof.
  induction first as [|c first IH]; [by destruct rest|].
  rewrite app_String. cbn. by rewrite IH.
Qed.

Lemma length_app_string (a b : string) :
  String.length (a +:+ b) = (String.length a + String.length b)%nat.
Proof.
  induction a as [|c a IH]; [done|].
  rewrite app_String. cbn. by rewrite IH.
Qed.

(** Two long values of a sensitive header that agree on their first 20
    characters give the same line. *)
Lemma header_line_hides_the_tail (key first20 rest1 rest2 : string) :
  mentions "auth" key \/ mentions "key" key ->
  String.length first20 = 20%nat -> rest1 <> "" -> rest2 <> "" ->
  header_line key (first20 +:+ rest1) = header_line key (first20 +:+ rest2).
Proof.
  intros Hname Hlen H1 H2. unfold header_line.
  assert ((PyStr.contains "auth" (PyStr.lower key)
           || PyStr.contains "key" (PyStr.lower key)) = true) as ->.
  { apply orb_true_iff.
    destruct Hname as [Hm|Hm]; [left|right]; by apply contains_spec. }
  assert (Hlong : forall rest, rest <> "" ->
            (20 <? PyStr.len (first20 +:+ rest)) = true).
  { intros rest Hrest. apply Z.ltb_lt. unfold PyStr.len.
    rewrite length_app_string, Hlen. destruct rest; [done|cbn; lia]. }
  rewrite !Hlong by done.
  by rewrite <- Hlen, !slice_to_app.
Qed.

(** X14. The debug log shows nothing of a sensitive value past its first
    20 characters. Two requests with the same method, URL and header
    names, whose values differ only behind the 20th character of values
    longer than 20 under names that contain [auth] or [key], give the
    same printed lines: the wrapped transport is entered in the same
    state for both. *)
Theorem debug_log_hides_the_tail_of_secrets self
    (request1 request2 : Httpx.Request) st :
  Httpx.method request1 = Httpx.method request2 ->
  Httpx.url request1 = Httpx.url request2 ->
  Forall2 (fun h1 h2 : string * string =>
             h1.1 = h2.1 /\
             (h1.2 = h2.2 \/
              ((mentions "auth" h1.1 \/ mentions "key" h1.1) /\
               exists first20 rest1 rest2,
                 String.length first20 = 20%nat /\
                 rest1 <> "" /\ rest2 <> "" /\
                 h1.2 = first20 +:+ rest1 /\ h2.2 = first20 +:+ rest2)))
          (Httpx.headers request1) (Httpx.headers request2) ->
  exists st1,
    DebugTransport.handle_request self request1 st =
      Httpx.handle_request (DebugTransport.transport self) request1 st1 /\
    DebugTransport.handle_request self request2 st =
      Httpx.handle_request (DebugTransport.transport self) request2 st1.
Proof.
  intros Hmethod Hurl Hheaders.
  rewrite !handle_request_run. eexists. split; [reflexivity|].
  rewrite Hmethod, Hurl.
  assert ((fun kv : string * string => header_line kv.1 kv.2)
            <$> Httpx.headers request1
          = (fun kv : string * string => header_line kv.1 kv.2)
            <$> Httpx.headers request2) as ->; [|done].
  induction Hheaders as [|[k1 v1] [k2 v2] l1 l2 [Hk Hv] _ IH]; [done|].
  cbn in *. subst k2. f_equal; [|exact IH].
  destruct Hv as [->|(Hname & first20 & rest1 & rest2 & ? & ? & ? & -> & ->)];
    [done|].
  by apply header_line_hides_the_tail.
Qed.

End RedactionFacts.

(** ** Merging filters *)

Section FilterFacts.

Import FathomFilters.

(** Lookups in merged filters, for an open key and for a closed one. *)
Ltac lookups :=
  unfold dict_merge, with_details, external_meetings, internal_meetings;
  rewrite ?lookup_union, ?lookup_insert, ?lookup_singleton;
  repeat case_decide; subst; try done.
Ltac closed_lookups :=
  unfold dict_merge, with_details, external_meetings, internal_meetings;
  rewrite ?lookup_union, ?lookup_insert, ?lookup_singleton;
  reflexivity.

(** X15. The combined filter of the filter test: a [created_after]
    entry, a domain filter and the detail flags have no key in common.
    Their merge has exactly the six keys, each with the value of the
    dictionary it came from, and the order of the operands does not
    matter. *)
Theorem combined_filters_do_not_collide (date : string) (domain : Kwargs) :
  domain = external_meetings \/ domain = internal_meetings ->
  let created : Kwargs := {[ "created_after" := VStr date ]} in
  let all := dict_merge (dict_merge created domain) with_details in
  dom all = ({[ "created_after"; "calendar_invitees_domains_type";
                "include_action_items"; "include_crm_matches";
                "include_summary"; "include_transcript" ]} : gset string) /\
  all !! "created_after" = Some (VStr date) /\
  all !! "calendar_invitees_domains_type"
    = domain !! "calendar_invitees_domains_type" /\
  (forall k, is_Some (with_details !! k) -> all !! k = Some (VBool true)) /\
  dict_merge (dict_merge with_details domain) created = all /\
  dict_merge (dict_merge domain with_details) created = all /\
  dict_merge created (dict_merge with_details domain) = all.
Proof.
  intros Hdomain created all.
  assert (Hflags : dom with_details =
    ({[ "include_action_items"; "include_crm_matches";
        "include_summary"; "include_transcript" ]} : gset string)).
  { unfold with_details. rewrite !dom_insert_L, dom_singleton_L. set_solver. }
  assert (Hdom : dom domain
                 = ({[ "calendar_invitees_domains_type" ]} : gset string)).
  { destruct Hdomain as [-> | ->]; apply dom_singleton_L. }
  split.
  { unfold all, created, dict_merge.
    rewrite !dom_union_L, Hflags, Hdom, dom_singleton_L. set_solver. }
  split; [destruct Hdomain as [-> | ->]; subst all created; closed_lookups|].
  split; [destruct Hdomain as [-> | ->]; subst all created; closed_lookups|].
  split.
  { intros k Hk. apply elem_of_dom in Hk. rewrite Hflags in Hk.
    rewrite !elem_of_union, !elem_of_singleton in Hk.
    destruct Hdomain as [-> | ->]; subst all created;
      destruct Hk as [[[->| ->]| ->]| ->]; closed_lookups. }
  split; [|split]; apply map_eq; intros k;
    destruct Hdomain as [-> | ->]; subst all created; lookups.
Qed.
End FilterFacts.

(** ** The display utilities *)

Section DisplayFacts.
Context {W Sdk : Type} `{!SdkEnumText}.
Implicit Types (st : State W Sdk).

Import Display.

Lemma print_run (line : string) st :
  print line st = (inr tt, after_print [line] st).
Proof. reflexivity. Qed.

(** A loop whose body prints some lines per element prints them all, in
    order. *)
Lemma for_each_prints_blocks {A} (xs : list A) (body : A -> M unit)
    (lines : A -> list string) st :
  (forall x st0, body x st0 = (inr tt, after_print (lines x) st0)) ->
  for_each xs body st = (inr tt, after_print (concat (lines <$> xs)) st).
Proof.
  intros Hbody. revert st. induction xs as [|x xs IH]; intros st; cbn.
  - unfold ret. by rewrite after_print_nil.
  - rewrite (bind_run _ _ _ _ _ (Hbody x st)), IH.
    by rewrite after_print_app.
Qed.

Lemma concat_option_list {A B} (f : A -> option B) (xs : list A) :
  concat ((fun x => option_list (f x)) <$> xs) = omap f xs.
Proof.
  induction xs as [|x xs IH]; [done|]. cbn. rewrite IH.
  by destruct (f x).
Qed.

Lemma concat_singletons {A B} (f : A -> B) (xs : list A) :
  concat ((fun x => [f x]) <$> xs) = f <$> xs.
Proof. induction xs as [|x xs IH]; [done|]. cbn. by rewrite IH. Qed.

(** [enumerate] numbers the elements from its start, in order. *)
Lemma enumerate_blocks {A B} (g : Z -> A -> list B) (xs : list A) (start : Z) :
  concat ((fun entry => g entry.1 entry.2) <$> enumerate xs start)
  = concat (imap (fun i x => g (Z.of_nat i + start) x) xs).
Proof.
  revert start. induction xs as [|x xs IH]; intros start; [done|].
  cbn. rewrite IH. f_equal. f_equal. apply imap_ext.
  intros i y _. cbn. f_equal. lia.
Qed.

(** What the body of the loop over the meetings prints. *)
Lemma meeting_body_run (i : Z) (meeting : Meeting) st :
  (print (PyStr.nl +:+ "  Meeting " +:+ pretty i +:+ ":") ;;
   match meeting with
   | MObject attributes =>
       for_each attributes (fun '(attr, value) =>
         if negb (PyStr.startswith "_" attr)
            && negb (match value with
                     | OOther is_callable _ => is_callable
                     | _ => false
                     end)
         then
           match value with
           | ONone => ret tt
           | OStr s =>
               if 80 <? PyStr.len s
               then print ("    " +:+ attr +:+ ": "
                           +:+ PyStr.slice_to 80 s +:+ "...")
               else print ("    " +:+ attr +:+ ": " +:+ s)
           | OOther _ text => print ("    " +:+ attr +:+ ": " +:+ text)
           end
         else ret tt)
   | MDict items =>
       for_each items (fun '(key, value) =>
         match value with
         | OStr s =>
             if 100 <? PyStr.len s
             then print ("    " +:+ key +:+ ": "
                         +:+ PyStr.slice_to 100 s +:+ "...")
             else print ("    " +:+ key +:+ ": " +:+ s)
         | ONone => print ("    " +:+ key +:+ ": " +:+ "None")
         | OOther _ text => print ("    " +:+ key +:+ ": " +:+ text)
         end)
   | MOther => ret tt
   end) st
  = (inr tt,
     after_print ((PyStr.nl +:+ "  Meeting " +:+ pretty i +:+ ":")
                  :: meeting_lines meeting) st).
Proof.
  rewrite (bind_run _ _ _ _ _ (print_run _ st)).
  destruct meeting as [attributes|items|]; cbn [meeting_lines].
  - rewrite (for_each_prints_blocks _ _
               (fun entry => option_list (attribute_line entry))).
    + by rewrite concat_option_list, after_print_app.
    + intros [attr value] st0. unfold attribute_line.
      destruct (PyStr.startswith "_" attr); cbn;
        [unfold ret; by rewrite after_print_nil|].
      destruct value as [s| |[|] text]; cbn;
        try (unfold ret; by rewrite after_print_nil); try done.
      by destruct (80 <? PyStr.len s).
  - rewrite (for_each_prints_blocks _ _ (fun entry => [item_line entry])).
    + by rewrite concat_singletons, after_print_app.
    + intros [key value] st0. unfold item_line.
      destruct value as [s| |c text]; try done.
      by destruct (100 <? PyStr.len s).
  - done.
Qed.

(** The whole output of [print_meeting_summary]. *)
Lemma print_meeting_summary_run (meetings : list Meeting) (max_display : Z) st :
  print_meeting_summary meetings max_display st =
  (inr tt,
   after_print
     (match meetings with
      | [] => ["ℹ️  No meetings found in response"]
      | _ :: _ =>
          (("✅ Found " +:+ pretty (Z.of_nat (length meetings))
            +:+ " meeting(s)")
           :: concat (imap meeting_block
                           (list_slice_to max_display meetings)))
          ++ (if max_display <? Z.of_nat (length meetings)
              then [PyStr.nl +:+ "  ... and "
                    +:+ pretty (Z.of_nat (length meetings) - max_display)
                    +:+ " more meeting(s)"]
              else [])
      end) st).
Proof.
  unfold print_meeting_summary. cbv zeta.
  destruct meetings as [|m meetings]; [done|].
  assert ((Z.of_nat (length (m :: meetings)) =? 0) = false) as ->
    by (apply Z.eqb_neq; cbn [length]; lia).
  set (ms := m :: meetings).
  unfold print_success.
  rewrite (bind_run _ _ _ _ _ (print_run _ st)).
  erewrite bind_run; cycle 1.
  { apply (for_each_prints_blocks _ _
      (fun entry : Z * Meeting =>
         (PyStr.nl +:+ "  Meeting " +:+ pretty entry.1 +:+ ":")
         :: meeting_lines entry.2)).
    intros [i meeting] st0. apply meeting_body_run. }
  rewrite (enumerate_blocks
    (fun i meeting => (PyStr.nl +:+ "  Meeting " +:+ pretty i +:+ ":")
                      :: meeting_lines meeting)).
  rewrite after_print_app.
  destruct (max_display <? Z.of_nat (length ms)).
  - rewrite print_run, after_print_app. by rewrite <- app_assoc.
  - unfold ret. by rewrite app_nil_r.
Qed.

End DisplayFacts.

(** ** What the meeting summary shows *)

Section MeetingSummaryFacts.
Context {W Sdk : Type} `{!SdkEnumText}.
Implicit Types (st : State W Sdk).

Import Display.

(** X16. With a [max_display] that is not negative: no meetings give the
    single line that says so; otherwise the summary has the count, then
    the heading and the lines of each of the first [max_display]
    meetings, numbered from 1 in order, and, exactly when there are more
    meetings than [max_display], a last line with the number left out.
    Shown and left out add up to the count. *)
Theorem meeting_summary_shows_the_first_meetings (meetings : list Meeting)
    (max_display : Z) st :
  0 <= max_display ->
  let count := Z.of_nat (length meetings) in
  let shown := take (Z.to_nat max_display) meetings in
  (meetings = [] ->
   print_meeting_summary meetings max_display st =
   (inr tt, after_print ["ℹ️  No meetings found in response"] st)) /\
  (meetings <> [] ->
   print_meeting_summary meetings max_display st =
   (inr tt,
    after_print
      ((("✅ Found " +:+ pretty count +:+ " meeting(s)")
        :: concat (imap meeting_block shown))
       ++ (if max_display <? count
           then [PyStr.nl +:+ "  ... and " +:+ pretty (count - max_display)
                 +:+ " more meeting(s)"]
           else [])) st)) /\
  (max_display < count ->
   Z.of_nat (length shown) + (count - max_display) = count).
Proof.
  intros Hmax count shown. split; [|split].
  - intros ->. apply print_meeting_summary_run.
  - intros Hne. rewrite print_meeting_summary_run.
    destruct meetings as [|m meetings]; [done|].
    unfold list_slice_to. by rewrite (proj2 (Z.leb_le 0 max_display) Hmax).
  - intros Hlt. unfold shown, count in *. rewrite length_take. lia.
Qed.

(** X17. With a negative [max_display] and at least one meeting, the
    slice drops meetings from the end: all but the last [-max_display]
    are shown. The last line is always printed, and the number it gives
    is the count plus [-max_display], more than there are meetings. *)
Theorem negative_max_display_overstates_the_rest (meetings : list Meeting)
    (max_display : Z) st :
  max_display < 0 ->
  meetings <> [] ->
  let count := Z.of_nat (length meetings) in
  print_meeting_summary meetings max_display st =
  (inr tt,
   after_print
     ((("✅ Found " +:+ pretty count +:+ " meeting(s)")
       :: concat (imap meeting_block
                    (take (length meetings - Z.to_nat (- max_display))
                          meetings)))
      ++ [PyStr.nl +:+ "  ... and " +:+ pretty (count - max_display)
          +:+ " more meeting(s)"]) st) /\
  count < count - max_display.
Proof.
  intros Hneg Hne count. split; [|lia].
  rewrite print_meeting_summary_run.
  destruct meetings as [|m meetings]; [done|].
  unfold list_slice_to.
  rewrite (proj2 (Z.leb_gt 0 max_display) Hneg).
  fold count.
  by rewrite (proj2 (Z.ltb_lt max_display count) ltac:(unfold count; lia)).
Qed.

(** The summary of a single meeting. *)
Lemma single_meeting_summary_run (meeting : Meeting) st :
  print_meeting_summary [meeting] 1 st =
  (inr tt,
   after_print (["✅ Found 1 meeting(s)"; PyStr.nl +:+ "  Meeting 1:"]
                ++ meeting_lines meeting) st).
Proof.
  rewrite print_meeting_summary_run.
  change (Z.of_nat (length [meeting])) with 1.
  change (list_slice_to 1 [meeting]) with [meeting].
  change (1 <? 1) with false.
  cbn [imap concat]. unfold meeting_block.
  change (Z.of_nat 0 + 1) with 1.
  change (pretty 1) with "1".
  by rewrite !app_nil_r.
Qed.

(** When an attribute of a meeting object gets a line. *)
Lemma attribute_line_Some (attr : string) (value : PyObj) (line : string) :
  attribute_line (attr, value) = Some line <->
  exists shown,
    (forall rest, attr <> "_" +:+ rest) /\
    line = "    " +:+ attr +:+ ": " +:+ shown /\
    ((exists s, value = OStr s /\
        (((String.length s <= 80)%nat /\ shown = s) \/
         ((80 < String.length s)%nat /\
          exists first rest,
            s = first +:+ rest /\ String.length first = 80%nat /\
            shown = first +:+ "..."))) \/
     (exists text, value = OOther false text /\ shown = text)).
Proof.
  unfold attribute_line.
  destruct (PyStr.startswith "_" attr) eqn:Hprivate.
  { split; [done|]. intros (shown & Hpublic & _).
    apply startswith_spec in Hprivate as [rest ->]. by destruct (Hpublic rest). }
  assert (Hpublic : forall rest, attr <> "_" +:+ rest).
  { intros rest ->. assert (PyStr.startswith "_" ("_" +:+ rest) = true)
      by (apply startswith_spec; by exists rest). congruence. }
  destruct value as [s| |[|] text].
  - unfold PyStr.len. destruct (80 <? Z.of_nat (String.length s)) eqn:Hlen.
    + apply Z.ltb_lt in Hlen.
      destruct (slice_to_spec 80 s) as (rest & Heq & H80); [lia|].
      split.
      * intros [= <-]. eexists. split; [done|]. split; [done|].
        left. exists s. split; [done|]. right. split; [lia|].
        by exists (PyStr.slice_to 80 s), rest.
      * intros (shown & _ & -> & [(s' & [= <-] & Hs)|(text & ? & _)]);
          [|done].
        destruct Hs as [[? _]|(_ & first & rest' & Hs & Hfirst & ->)];
          [lia|].
        rewrite Hs, <- Hfirst, slice_to_app. done.
    + apply Z.ltb_ge in Hlen. split.
      * intros [= <-]. exists s. split; [done|]. split; [done|].
        left. exists s. split; [done|]. left. split; [lia|done].
      * intros (shown & _ & -> & [(s' & [= <-] & Hs)|(text & ? & _)]);
          [|done].
        destruct Hs as [[_ ->]|[? _]]; [done|lia].
  - split; [done|].
    by intros (shown & _ & _ & [(s & ? & _)|(text' & ? & _)]).
  - split; [done|].
    by intros (shown & _ & _ & [(s & ? & _)|(text' & ? & _)]).
  - split.
    + intros [= <-]. exists text. split; [done|]. split; [done|].
      right. by exists text.
    + by intros (shown & _ & -> & [(s & ? & _)|(text' & [= <-] & ->)]).
Qed.

(** X18. Of a meeting object, the summary shows the attributes whose
    name does not start with an underscore and whose value is a string
    or another value that is not callable and not [None], and no other.
    A string of more than 80 characters is shown as its first 80
    characters and [...], a shorter one and any other value as it is. *)
Theorem object_meeting_shows_public_data_attributes
    (attributes : list (string * PyObj)) st :
  exists lines,
    print_meeting_summary [MObject attributes] 1 st =
    (inr tt,
     after_print (["✅ Found 1 meeting(s)"; PyStr.nl +:+ "  Meeting 1:"]
                  ++ lines) st) /\
    forall line,
      line ∈ lines <->
      exists attr value shown,
        (attr, value) ∈ attributes /\
        (forall rest, attr <> "_" +:+ rest) /\
        line = "    " +:+ attr +:+ ": " +:+ shown /\
        ((exists s, value = OStr s /\
            (((String.length s <= 80)%nat /\ shown = s) \/
             ((80 < String.length s)%nat /\
              exists first rest,
                s = first +:+ rest /\ String.length first = 80%nat /\
                shown = first +:+ "..."))) \/
         (exists text, value = OOther false text /\ shown = text)).
Proof.
  exists (omap attribute_line attributes). split.
  - apply (single_meeting_summary_run (MObject attributes)).
  - intros line. rewrite list_elem_of_omap. split.
    + intros ([attr value] & Hin & Hline).
      apply attribute_line_Some in Hline as (shown & ? & ? & ?).
      by exists attr, value, shown.
    + intros (attr & value & shown & Hin & ? & ? & ?).
      exists (attr, value). split; [done|].
      apply attribute_line_Some. by exists shown.
Qed.

(** X19. Of a meeting dictionary, the summary shows every item, in
    order, one line each: [None] as [None], a string of more than 100
    characters as its first 100 characters and [...], a shorter string
    and any other value as it is. *)
Theorem dict_meeting_shows_every_item (items : list (string * PyObj)) st :
  exists lines,
    print_meeting_summary [MDict items] 1 st =
    (inr tt,
     after_print (["✅ Found 1 meeting(s)"; PyStr.nl +:+ "  Meeting 1:"]
                  ++ lines) st) /\
    length lines = length items /\
    forall (i : nat) (key : string) (value : PyObj),
      items !! i = Some (key, value) ->
      exists shown,
        lines !! i = Some ("    " +:+ key +:+ ": " +:+ shown) /\
        (value = ONone -> shown = "None") /\
        (forall c text, value = OOther c text -> shown = text) /\
        (forall s, value = OStr s -> (String.length s <= 100)%nat ->
           shown = s) /\
        (forall s, value = OStr s -> (100 < String.length s)%nat ->
           exists first rest,
             s = first +:+ rest /\ String.length first = 100%nat /\
             shown = first +:+ "...").
Proof.
  exists (item_line <$> items). split; [|split].
  - apply (single_meeting_summary_run (MDict items)).
  - by rewrite length_fmap.
  - intros i key value Hi. rewrite list_lookup_fmap, Hi. cbn.
    destruct value as [s| |c text].
    + unfold PyStr.len.
      destruct (100 <? Z.of_nat (String.length s)) eqn:Hlen.
      * apply Z.ltb_lt in Hlen.
        destruct (slice_to_spec 100 s) as (rest & Heq & H100); [lia|].
        eexists. split; [done|]. repeat split; try done.
        -- intros s' [= <-] ?. lia.
        -- intros s' [= <-] _. by exists (PyStr.slice_to 100 s), rest.
      * apply Z.ltb_ge in Hlen.
        eexists. split; [done|]. repeat split; try done.
        -- by intros s' [= <-] _.
        -- intros s' [= <-] ?. lia.
    + eexists. split; [done|]. by repeat split.
    + eexists. split; [done|]. repeat split; try done.
      by intros c' text' [= _ <-].
Qed.

End MeetingSummaryFacts.

(** ** Showing results and the key *)

Section ReportFacts.
Context {W Sdk Payload : Type} `{!Service W Sdk Payload} `{!SdkEnumText}.
Implicit Types (self : FathomConnection.t Sdk) (st : State W Sdk).

Import FathomConnection Display.

(** The lines of [print_response_summary]. *)
Lemma print_response_summary_run (result : FathomResponse Payload)
    (name : string) st :
  print_response_summary result name st =
  (inr tt,
   after_print
     ((if success result
       then ["✅ " +:+ name +:+ " successful via " +:+ method result]
       else ["❌ " +:+ name +:+ " failed via " +:+ method result;
             "  Error: " +:+ default "None" (error result)])
      ++ match status_code result with
         | Some code =>
             if code =? 0 then []
             else ["  Status Code: " +:+ pretty code]
         | None => []
         end) st).
Proof.
  unfold print_response_summary, print_success, print_error, print_result.
  destruct (success result).
  - rewrite (bind_run _ _ _ _ _ (print_run _ st)).
    destruct (status_code result) as [code|]; [destruct (code =? 0)|];
      cbn [negb]; unfold ret; rewrite ?print_run, ?after_print_app; done.
  - rewrite (bind_run _ _ _ _ _ (print_run _ st)).
    rewrite (bind_run _ _ _ _ _ (print_run _ _)).
    destruct (status_code result) as [code|]; [destruct (code =? 0)|];
      cbn [negb]; unfold ret; rewrite ?print_run, ?after_print_app; done.
Qed.

(** X20. The summary of what a client operation returned never raises.
    For a success it is one line naming the path; for a failure it is
    that line and a line with the error text, which is never [None].
    A line with the status code follows exactly when the envelope has a
    status code other than zero, which an envelope of the SDK path
    never has. *)
Theorem summary_of_a_client_result self (prefer_rest : bool)
    (kwargs : Kwargs) (name : string) st
    (op : M (W:=W) (Sdk:=Sdk) (FathomResponse Payload)) :
  op = list_teams_sdk self \/ op = list_meetings_sdk self kwargs \/
  op = list_teams_rest self \/ op = list_meetings_rest self kwargs \/
  op = list_teams self prefer_rest \/
  op = list_meetings self prefer_rest kwargs ->
  exists r st' head status,
    op st = (inr r, st') /\
    (result <- op ;; print_response_summary result name) st
      = (inr tt, after_print (head ++ status) st') /\
    (success r = true ->
     head = ["✅ " +:+ name +:+ " successful via " +:+ method r]) /\
    (success r = false ->
     exists msg, error r = Some msg /\
       head = ["❌ " +:+ name +:+ " failed via " +:+ method r;
               "  Error: " +:+ msg]) /\
    (forall code, status_code r = Some code -> code <> 0 ->
       status = ["  Status Code: " +:+ pretty code]) /\
    (status_code r = None \/ status_code r = Some 0 -> status = []) /\
    (method r = "sdk" -> status = []).
Proof.
  intros Hop.
  destruct (client_result_ind
    (fun r => (success r = false -> exists msg, error r = Some msg) /\
              (method r = "sdk" -> status_code r = None))
    self prefer_rest kwargs st op) as (r & st' & Hrun & [Herr Hsdk] & _);
    try done.
  - intros [e|d]; cbn; split; eauto; done.
  - intros [e|response]; cbn; [split; eauto; done|].
    destruct (_ =? _); [destruct (resp_json response)|]; cbn;
      split; eauto; done.
  - cbn. split; eauto.
  - eexists r, st', _, _. split; [exact Hrun|].
    split.
    { rewrite (bind_run _ _ _ _ _ Hrun). apply print_response_summary_run. }
    split; [by intros ->|].
    split.
    { intros Hfail. destruct (Herr Hfail) as [msg Hmsg].
      exists msg. split; [done|]. by rewrite Hfail, Hmsg. }
    split.
    { intros code -> Hcode. by rewrite (proj2 (Z.eqb_neq code 0) Hcode). }
    split; [by intros [-> | ->]|].
    intros Hm. by rewrite (Hsdk Hm).
Qed.

(** [print_api_key_info] on a dictionary that has both entries. *)
Lemma print_api_key_info_run_both (api_info : gmap string PyVal)
    (length available : PyVal) st :
  api_info !! "length" = Some length ->
  api_info !! "sdk_client_available" = Some available ->
  print_api_key_info api_info st =
  (inr tt,
   after_print ["✅ API key loaded (length: " +:+ py_str length +:+ ")";
                "✅ SDK client available: " +:+ py_str available] st).
Proof.
  intros Hl Ha.
  unfold print_api_key_info, getitem, print_success. rewrite Hl, Ha.
  unfold bind at 1. unfold ret at 1.
  rewrite (bind_run _ _ _ _ _ (print_run _ st)).
  unfold bind at 1. unfold ret at 1.
  by rewrite print_run, after_print_app.
Qed.

(** X21. [print_api_key_info] reads [length] and then
    [sdk_client_available] from the dictionary it is given. A dictionary
    without [length] raises [KeyError] before anything is printed; one
    with [length] but without [sdk_client_available] raises it after the
    first line; one with both gives the two lines. *)
Theorem print_api_key_info_needs_both_entries (api_info : gmap string PyVal)
    st :
  (api_info !! "length" = None ->
   print_api_key_info api_info st = (inl (KeyError "length"), st)) /\
  (forall length,
     api_info !! "length" = Some length ->
     api_info !! "sdk_client_available" = None ->
     print_api_key_info api_info st =
     (inl (KeyError "sdk_client_available"),
      after_print ["✅ API key loaded (length: " +:+ py_str length +:+ ")"]
                  st)) /\
  (forall length available,
     api_info !! "length" = Some length ->
     api_info !! "sdk_client_available" = Some available ->
     print_api_key_info api_info st =
     (inr tt,
      after_print ["✅ API key loaded (length: " +:+ py_str length +:+ ")";
                   "✅ SDK client available: " +:+ py_str available] st)).
Proof.
  unfold print_api_key_info, getitem, print_success.
  split; [|split].
  - intros ->. done.
  - intros length -> ->. unfold bind at 1. unfold ret at 1.
    by rewrite (bind_run _ _ _ _ _ (print_run _ st)).
  - intros length available -> ->. unfold bind at 1. unfold ret at 1.
    rewrite (bind_run _ _ _ _ _ (print_run _ st)).
    unfold bind at 1. unfold ret at 1.
    by rewrite print_run, after_print_app.
Qed.

(** The three entries of [get_api_key_info]. *)
Lemma api_key_info_lookup self :
  get_api_key_info self !! "length" = Some (VInt (PyStr.len (api_key self))) /\
  get_api_key_info self !! "prefix"
    = Some (VStr (PyStr.slice_to 10 (api_key self) +:+ "...")) /\
  get_api_key_info self !! "sdk_client_available"
    = Some (VBool (match sdk_client self with
                   | Some _ => true
                   | None => false
                   end)).
Proof. unfold get_api_key_info. repeat split; by simplify_map_eq. Qed.

(** The thirteen lines of [test_connection_and_api_key]. *)
Lemma test_connection_and_api_key_run self st :
  TestApi.test_connection_and_api_key self st =
  (inr tt,
   after_print
     (let length := pretty (PyStr.len (api_key self)) in
      let available :=
        match sdk_client self with Some _ => "True" | None => "False" end in
      [PyStr.mul "=" 60;
       "Fathom.ai API Connection Test";
       PyStr.mul "=" 60;
       "✅ API key loaded (length: " +:+ length +:+ ")";
       "✅ SDK client available: " +:+ available;
       "";
       PyStr.nl +:+ PyStr.mul "=" 60;
       "API Key Information";
       PyStr.mul "=" 60;
       "  API Key starts with: " +:+ PyStr.slice_to 10 (api_key self) +:+ "...";
       "  API Key length: " +:+ length;
       "  SDK Client Available: " +:+ available;
       ""]) st).
Proof.
  destruct (api_key_info_lookup self) as (Hlen & Hprefix & Havail).
  assert (Hget : forall (key : string) (v : PyVal) (st0 : State W Sdk),
            get_api_key_info self !! key = Some v ->
            getitem (get_api_key_info self) key st0 = (inr v, st0)).
  { intros key v st0 Hv. unfold getitem. by rewrite Hv. }
  assert (Hthree : forall (a b c : string) (st0 : State W Sdk),
            (print a ;; print b ;; print c) st0
            = (inr tt, after_print [a; b; c] st0)).
  { intros a b c st0.
    rewrite (bind_run _ _ _ _ _ (print_run a st0)).
    rewrite (bind_run _ _ _ _ _ (print_run b _)).
    by rewrite print_run, !after_print_app. }
  unfold TestApi.test_connection_and_api_key. cbv zeta.
  rewrite (bind_run _ _ _ _ _ (Hthree _ _ _ st : print_header _ _ _ = _)).
  rewrite (bind_run _ _ _ _ _
             (print_api_key_info_run_both _ _ _ _ Hlen Havail)).
  rewrite (bind_run _ _ _ _ _ (print_run _ _)).
  rewrite (bind_run _ _ _ _ _ (Hthree _ _ _ _ : print_subheader _ _ _ = _)).
  rewrite (bind_run _ _ _ _ _ (Hget _ _ _ Hprefix)).
  rewrite (bind_run _ _ _ _ _ (print_run _ _ : print_result _ _ _ _ = _)).
  rewrite (bind_run _ _ _ _ _ (Hget _ _ _ Hlen)).
  rewrite (bind_run _ _ _ _ _ (print_run _ _ : print_result _ _ _ _ = _)).
  rewrite (bind_run _ _ _ _ _ (Hget _ _ _ Havail)).
  rewrite (bind_run _ _ _ _ _ (print_run _ _ : print_result _ _ _ _ = _)).
  rewrite print_run, !after_print_app.
  f_equal. f_equal. cbn [app py_str].
  by destruct (sdk_client self).
Qed.

(** X22. The key report of the API test never raises and makes no call.
    It prints thirteen lines, and these depend on the connection only
    through the length of the key, its first ten characters and whether
    there is an SDK client: what follows the tenth character of the key
    is not shown. *)
Theorem key_report_shows_ten_characters_of_the_key self st :
  exists lines,
    TestApi.test_connection_and_api_key self st
      = (inr tt, after_print lines st) /\
    length lines = 13%nat /\
    forall (other : FathomConnection.t Sdk) (st0 : State W Sdk),
      String.length (api_key other) = String.length (api_key self) ->
      PyStr.slice_to 10 (api_key other) = PyStr.slice_to 10 (api_key self) ->
      (is_Some (sdk_client other) <-> is_Some (sdk_client self)) ->
      TestApi.test_connection_and_api_key other st0
        = (inr tt, after_print lines st0).
Proof.
  eexists. split; [apply test_connection_and_api_key_run|].
  split; [done|].
  intros other st0 Hlen Hprefix Havail.
  rewrite test_connection_and_api_key_run. cbv zeta.
  unfold PyStr.len. rewrite Hlen, Hprefix.
  assert (match sdk_client other with Some _ => "True" | None => "False" end
          = match sdk_client self with Some _ => "True" | None => "False" end)
    as ->; [|done].
  destruct (sdk_client other), (sdk_client self); try done.
  - destruct Havail as [H1 _]. by destruct H1.
  - destruct Havail as [_ H2]. by destruct H2.
Qed.

End ReportFacts.

(** ** More runs on concrete worlds *)

Section MoreRuns.

Import FathomConnection Display Scenario.

(** The summary of the three sample meetings, two of them shown. *)
Example summary_of_the_sample_meetings :
  stdout (print_meeting_summary sample_meetings 2 at_all_down).2 =
  ["✅ Found 3 meeting(s)";
   PyStr.nl +:+ "  Meeting 1:";
   "    title: Weekly sync";
   "    url: None";
   PyStr.nl +:+ "  Meeting 2:";
   "    recording_id: 42";
   "    title: Planning";
   PyStr.nl +:+ "  ... and 1 more meeting(s)"].
Proof. reflexivity. Qed.

(** The key report of the sample connection. *)
Example key_report_of_the_sample_connection :
  stdout (TestApi.test_connection_and_api_key with_sdk at_all_down).2 =
  ["============================================================";
   "Fathom.ai API Connection Test";
   "============================================================";
   "✅ API key loaded (length: 6)";
   "✅ SDK client available: True";
   "";
   PyStr.nl +:+ "============================================================";
   "API Key Information";
   "============================================================";
   "  API Key starts with: secret...";
   "  API Key length: 6";
   "  SDK Client Available: True";
   ""].
Proof. reflexivity. Qed.

Lemma explicit_key_is_used_witness :
  "secret" <> "" /\
  exists conn st',
    __init__ (Payload:=string) (Some "secret") false key_in_shell
      = (inr conn, st') /\
    api_key conn = "secret" /\ environ st' = environ key_in_shell.
Proof.
  assert (Hk : "secret" <> "") by discriminate.
  split; [exact Hk|].
  exact (explicit_key_is_used (Payload:=string) "secret" false key_in_shell Hk).
Defined.

Lemma environment_beats_home_file_witness :
  environ key_in_shell !! "FATHOM_API_KEY" = Some "from-the-shell" /\
  exists conn st',
    __init__ (Payload:=string) None false key_in_shell = (inr conn, st') /\
    api_key conn = "from-the-shell".
Proof.
  assert (Henv : environ key_in_shell !! "FATHOM_API_KEY"
                 = Some "from-the-shell") by apply lookup_singleton_eq.
  split; [exact Henv|].
  refine (environment_beats_home_file (Payload:=string) None "from-the-shell"
            false key_in_shell (or_introl eq_refl) Henv _).
  discriminate.
Defined.

Lemma home_file_supplies_the_key_witness :
  environ key_in_home_file !! "FATHOM_API_KEY" = None /\
  exists conn st',
    __init__ (Payload:=string) None false key_in_home_file = (inr conn, st') /\
    api_key conn = "new-key" /\
    environ st' !! "FATHOM_API_KEY" = Some "new-key".
Proof.
  assert (Henv : environ key_in_home_file !! "FATHOM_API_KEY" = None)
    by apply lookup_empty.
  split; [exact Henv|].
  refine (home_file_supplies_the_key (Payload:=string) None "new-key" false
            key_in_home_file
            [("FATHOM_API_KEY", Some "old-key"); ("OTHER", None)] []
            (or_introl eq_refl) Henv eq_refl _ _).
  - intros v Hin. by apply not_elem_of_nil in Hin.
  - discriminate.
Defined.

Lemma empty_environment_variable_hides_the_file_witness :
  environ empty_key_in_shell !! "FATHOM_API_KEY" = Some "" /\
  home_dotenv empty_key_in_shell = [("FATHOM_API_KEY", Some "file-key")] /\
  exists st',
    __init__ (Payload:=string) None false empty_key_in_shell =
    (inl (ValueError
       "FATHOM_API_KEY not found in ~/.env or provided as parameter"), st').
Proof.
  assert (Henv : environ empty_key_in_shell !! "FATHOM_API_KEY" = Some "")
    by apply lookup_singleton_eq.
  split; [exact Henv|]. split; [reflexivity|].
  exact (empty_environment_variable_hides_the_file (Payload:=string) None
           false empty_key_in_shell (or_introl eq_refl) Henv).
Defined.


Lemma constructed_connection_is_well_formed_witness :
  __init__ (Payload:=string) (Some "secret") false at_all_down
    = (inr with_sdk, at_all_down) /\
  api_key with_sdk <> "" /\
  rest_headers with_sdk !! "x-api-key" = Some (api_key with_sdk).
Proof.
  assert (Hinit : __init__ (Payload:=string) (Some "secret") false at_all_down
                  = (inr with_sdk, at_all_down)) by reflexivity.
  split; [exact Hinit|].
  destruct (constructed_connection_is_well_formed _ _ _ _ _ Hinit)
    as (Hkey & _ & _ & Hheader & _).
  split; [exact Hkey|exact Hheader].
Defined.

Lemma envelope_is_tagged_and_explained_witness :
  exists r st',
    list_teams_sdk with_sdk at_all_down = (inr r, st') /\
    (method r = "sdk" \/ method r = "rest") /\
    (success r = false -> exists msg, error r = Some msg).
Proof.
  destruct (envelope_is_tagged_and_explained with_sdk false ∅ at_all_down
              (list_teams_sdk with_sdk) (or_introl eq_refl))
    as (r & st' & Hrun & Hmethod & Herror & _).
  exists r, st'. split; [exact Hrun|]. split; [exact Hmethod|exact Herror].
Defined.

Lemma rest_requests_of_a_constructed_connection_witness :
  __init__ (Payload:=string) (Some "secret") false at_all_down
    = (inr with_sdk, at_all_down) /\
  calls (list_teams_rest with_sdk at_all_down).2 =
    [RequestsGet "https://api.fathom.ai/external/v1/teams"
       (<[ "x-api-key" := "secret" ]> {[ "Accept" := "application/json" ]})
       None].
Proof.
  assert (Hinit : __init__ (Payload:=string) (Some "secret") false at_all_down
                  = (inr with_sdk, at_all_down)) by reflexivity.
  split; [exact Hinit|].
  exact (proj1 (rest_requests_of_a_constructed_connection _ _ ∅ _ _ _ Hinit)).
Defined.

Lemma debug_log_hides_the_tail_of_secrets_witness :
  exists st1,
    DebugTransport.handle_request debugging api_request at_all_down =
      Httpx.handle_request tt api_request st1 /\
    DebugTransport.handle_request debugging other_api_request at_all_down =
      Httpx.handle_request tt other_api_request st1.
Proof.
  refine (debug_log_hides_the_tail_of_secrets debugging api_request
            other_api_request at_all_down eq_refl eq_refl _).
  constructor.
  - split; [reflexivity|]. right. split.
    + right. by exists "x-api-", "".
    + exists "abcdefghijklmnopqrst", "uvwxyz", "0123456789".
      repeat split; discriminate.
  - constructor; [|constructor]. split; [reflexivity|]. by left.
Defined.

Lemma combined_filters_do_not_collide_witness :
  dict_merge
    (dict_merge FathomFilters.with_details FathomFilters.external_meetings)
    {[ "created_after" := VStr "2026-01-01T00:00:00Z" ]}
  = dict_merge
      (dict_merge {[ "created_after" := VStr "2026-01-01T00:00:00Z" ]}
                  FathomFilters.external_meetings)
      FathomFilters.with_details.
Proof.
  pose proof (combined_filters_do_not_collide "2026-01-01T00:00:00Z"
                FathomFilters.external_meetings (or_introl eq_refl)) as H.
  cbv zeta in H. destruct H as (_ & _ & _ & _ & H & _). exact H.
Defined.

Lemma meeting_summary_shows_the_first_meetings_witness :
  0 <= 2 /\
  print_meeting_summary sample_meetings 2 at_all_down =
  (inr tt,
   after_print
     ["✅ Found 3 meeting(s)";
      PyStr.nl +:+ "  Meeting 1:";
      "    title: Weekly sync";
      "    url: None";
      PyStr.nl +:+ "  Meeting 2:";
      "    recording_id: 42";
      "    title: Planning";
      PyStr.nl +:+ "  ... and 1 more meeting(s)"] at_all_down).
Proof.
  assert (Hmax : 0 <= 2) by discriminate.
  split; [exact Hmax|].
  pose proof (meeting_summary_shows_the_first_meetings sample_meetings 2
                at_all_down Hmax) as H.
  cbv zeta in H. destruct H as (_ & Hrun & _).
  refine (eq_trans (Hrun _) _); [discriminate|reflexivity].
Defined.

Lemma negative_max_display_overstates_the_rest_witness :
  -1 < 0 /\
  print_meeting_summary sample_meetings (-1) at_all_down =
  (inr tt,
   after_print
     ["✅ Found 3 meeting(s)";
      PyStr.nl +:+ "  Meeting 1:";
      "    title: Weekly sync";
      "    url: None";
      PyStr.nl +:+ "  Meeting 2:";
      "    recording_id: 42";
      "    title: Planning";
      PyStr.nl +:+ "  ... and 4 more meeting(s)"] at_all_down).
Proof.
  assert (Hneg : -1 < 0) by reflexivity.
  split; [exact Hneg|].
  pose proof (negative_max_display_overstates_the_rest sample_meetings (-1)
                at_all_down Hneg) as H.
  cbv zeta in H.
  refine (eq_trans (proj1 (H _)) _); [discriminate|reflexivity].
Defined.

Lemma dict_meeting_shows_every_item_witness :
  exists lines,
    print_meeting_summary
      [MDict [("title", OStr "Weekly sync"); ("url", ONone)]] 1 at_all_down =
    (inr tt,
     after_print (["✅ Found 1 meeting(s)"; PyStr.nl +:+ "  Meeting 1:"]
                  ++ lines) at_all_down) /\
    lines !! 1%nat = Some "    url: None".
Proof.
  destruct (dict_meeting_shows_every_item
              [("title", OStr "Weekly sync"); ("url", ONone)] at_all_down)
    as (lines & Hrun & _ & Hitems).
  exists lines. split; [exact Hrun|].
  destruct (Hitems 1%nat "url" ONone eq_refl) as (shown & Hline & Hnone & _).
  rewrite Hline, (Hnone eq_refl). reflexivity.
Defined.

Lemma summary_of_a_client_result_witness :
  exists r st' head status,
    list_teams_rest with_sdk at_server_error = (inr r, st') /\
    (result <- list_teams_rest with_sdk ;;
     print_response_summary result "List Teams REST") at_server_error
      = (inr tt, after_print (head ++ status) st') /\
    (method r = "sdk" -> status = []).
Proof.
  destruct (summary_of_a_client_result with_sdk false ∅ "List Teams REST"
              at_server_error (list_teams_rest with_sdk)
              (or_intror (or_intror (or_introl eq_refl))))
    as (r & st' & head & status & Hrun & Hprint & _ & _ & _ & _ & Hsdk).
  exists r, st', head, status.
  split; [exact Hrun|]. split; [exact Hprint|exact Hsdk].
Defined.

Lemma print_api_key_info_needs_both_entries_witness :
  print_api_key_info (W:=Scripted) (Sdk:=unit) ∅ at_all_down
    = (inl (KeyError "length"), at_all_down) /\
  print_api_key_info {[ "length" := VInt 6 ]} at_all_down
    = (inl (KeyError "sdk_client_available"),
       after_print ["✅ API key loaded (length: 6)"] at_all_down).
Proof.
  split.
  - destruct (print_api_key_info_needs_both_entries ∅ at_all_down)
      as (Hnone & _).
    apply Hnone. apply lookup_empty.
  - destruct (print_api_key_info_needs_both_entries {[ "length" := VInt 6 ]}
                at_all_down) as (_ & Hfirst & _).
    refine (Hfirst (VInt 6) _ _).
    + apply lookup_singleton_eq.
    + apply lookup_singleton_ne. discriminate.
Defined.

Lemma key_report_shows_ten_characters_of_the_key_witness :
  exists lines,
    TestApi.test_connection_and_api_key with_sdk at_all_down
      = (inr tt, after_print lines at_all_down) /\
    length lines = 13%nat.
Proof.
  destruct (key_report_shows_ten_characters_of_the_key (W:=Scripted)
              with_sdk at_all_down) as (lines & Hrun & Hlen & _).
  exists lines. split; [exact Hrun|exact Hlen].
Defined.

End MoreRuns.
